(** * Hackathon-Todo: the chat-to-tool-call bridge and its clients

    A shallow embedding of the request path of the todo assistant:

    - the FastAPI side (global JWT middleware, [verify_token], the identity
      guard of the chat route, the MCP task tools), whose code reaches us as
      the excerpts of the chat security notes;
    - the browser side ([chatApi.ts], [authApi.ts], [mockAuthApi.js] and the
      chat page), which is TypeScript.

    Python exceptions and rejected promises are explicit result values,
    tables are finite maps or row lists, and every external collaborator
    (the JWT library, the language-model agent, the network, the browser's
    base64 and JSON routines) is a section variable. *)

From Stdlib Require Import ZArith Ascii String DecimalString DecimalZ SpecFloat.
From stdpp Require Import gmap strings list fin_maps sorting.

Open Scope string_scope.
Open Scope list_scope.

(* ===================================================================== *)
(** * Part I. Definitions                                                  *)
(* ===================================================================== *)

(** ** Python results *)

Module Py.

(** The exceptions the excerpts can raise.  [HTTPException] is FastAPI's;
    [JWTError] is what [jwt.decode] raises on a token it cannot verify;
    [AttributeError] is an attribute read on [None]; [IntegrityError] is
    the database refusing a row that breaks a constraint of its table. *)
Inductive Exn : Type :=
| HTTPException (status_code : Z) (detail : string)
| JWTError
| AttributeError (attr : string)
| IntegrityError (constraint : string).

Inductive Outcome (A : Type) : Type :=
| Returned (a : A)
| Raised (e : Exn).

Arguments Returned {A} a.
Arguments Raised {A} e.

#[global] Instance Exn_eq_dec : EqDecision Exn.
Proof. solve_decision. Defined.

(** The HTTP status an outcome carries when the application chose one:
    the [status_code] of a raised [HTTPException]. *)
Definition http_status {A} (o : Outcome A) : option Z :=
  match o with
  | Raised (HTTPException s _) => Some s
  | _ => None
  end.

End Py.

Export Py.

(** ** Token verifier and identity guard (src/utils/jwt.py, src/main.py,
       src/routes/chat.py) *)

Module Auth.

Record TokenData : Type := mkTokenData { td_user_id : string }.

(** The part of a Starlette request the middleware and the route read:
    the URL path, the headers, and [request.state.token_data]. *)
Record Request : Type := mkRequest {
  url_path : string;
  headers : gmap string string;
  state_token_data : option TokenData
}.

Definition set_token_data (request : Request) (td : TokenData) : Request :=
  {| url_path := url_path request;
     headers := headers request;
     state_token_data := Some td |}.

(** Python's [s[n:]]. *)
Definition py_slice_from (n : nat) (s : string) : string :=
  String.substring n (String.length s - n) s.

Section Verifier.

(** [jwt.decode(token, key, algorithms=["HS256"])]: the claims of a token
    whose signature verifies under [key], [None] where the library raises. *)
Variable jwt_decode : string -> string -> option (gmap string string).
Variable BETTER_AUTH_SECRET : string.

(** [verify_token]: decode, read [sub], 401 when the claim is [None]. *)
Definition verify_token (token : string) : Outcome TokenData :=
  match jwt_decode token BETTER_AUTH_SECRET with
  | None => Raised JWTError
  | Some payload =>
      match payload !! "sub" with
      | None => Raised (HTTPException 401 "Could not validate credentials")
      | Some user_id => Returned (mkTokenData user_id)
      end
  end.

(** The global [@app.middleware("http")].  [call_next] is the rest of the
    application; [W] is whatever state it works on. *)
Definition verify_jwt_middleware {R W : Type} (request : Request)
    (call_next : Request -> W -> Outcome R * W) (w : W) : Outcome R * W :=
  if String.prefix "/api/" (url_path request) then
    match headers request !! "Authorization" with
    | None =>
        (Raised (HTTPException 401 "Missing or invalid Authorization header"), w)
    | Some auth_header =>
        if negb (String.prefix "Bearer " auth_header) then
          (Raised (HTTPException 401 "Missing or invalid Authorization header"), w)
        else
          let token := py_slice_from (String.length "Bearer ") auth_header in
          match verify_token token with
          | Raised e => (Raised e, w)
          | Returned token_data => call_next (set_token_data request token_data) w
          end
    end
  else call_next request w.

End Verifier.

Section ChatRoute.

Context {Body Resp W : Type}.

(** [get_token_data(req)] is not part of the excerpt; the notes say it reads
    [request.state].  It is a parameter here. *)
Variable get_token_data : Request -> Outcome TokenData.

(** Everything the chat handler does after the identity check (elided in
    the excerpt): conversation handling, the agent run, the tool calls. *)
Variable chat_body : string -> Body -> W -> Outcome Resp * W.

(** [POST /{user_id}/chat]. *)
Definition chat (user_id : string) (request : Body) (req : Request) (w : W)
    : Outcome Resp * W :=
  match get_token_data req with
  | Raised e => (Raised e, w)
  | Returned token_data =>
      if decide (td_user_id token_data ≠ user_id) then
        (Raised (HTTPException 403
                   "User ID in path does not match authenticated user"), w)
      else chat_body user_id request w
  end.

End ChatRoute.

(** The path of the chat endpoint for a path parameter [user_id]. *)
Definition chat_path (user_id : string) : string :=
  "/api/" +:+ user_id +:+ "/chat".

(** One chat request through the application: middleware, then route. *)
Definition post_chat {Body Resp W : Type}
    (jwt_decode : string -> string -> option (gmap string string))
    (secret : string)
    (get_token_data : Request -> Outcome TokenData)
    (chat_body : string -> Body -> W -> Outcome Resp * W)
    (user_id : string) (hdrs : gmap string string) (request : Body) (w : W)
    : Outcome Resp * W :=
  verify_jwt_middleware jwt_decode secret
    (mkRequest (chat_path user_id) hdrs None)
    (chat get_token_data chat_body user_id request) w.

End Auth.

(** ** Data model (specs: tasks table; src/types/task.ts) *)

Module Model.

Inductive Status : Type := pending | in_progress | completed.
Inductive Priority : Type := low | medium | high.

#[global] Instance Status_eq_dec : EqDecision Status.
Proof. solve_decision. Defined.
#[global] Instance Priority_eq_dec : EqDecision Priority.
Proof. solve_decision. Defined.

(** ISO date strings, as in [task.ts]. *)
Definition Timestamp : Type := string.

Record User : Type := mkUser {
  usr_id : string;
  usr_email : string;
  usr_username : string
}.

Record Task : Type := mkTask {
  id : string;
  user_id : string;
  title : string;
  description : option string;
  status : Status;
  priority : Priority;
  due_date : option Timestamp;
  created_at : Timestamp;
  updated_at : Timestamp;
  completed_at : option Timestamp
}.

#[global] Instance Task_eq_dec : EqDecision Task.
Proof. solve_decision. Defined.

(** The [user] and [task] tables, keyed by primary key. *)
Record TaskDB : Type := mkTaskDB {
  users : gmap string User;
  tasks : gmap string Task
}.

Definition set_tasks (f : gmap string Task -> gmap string Task) (db : TaskDB)
    : TaskDB :=
  {| users := users db; tasks := f (tasks db) |}.

(** The seed rows of the repository (seed data for users and tasks). *)
Definition seed_admin : string := "123e4567-e89b-12d3-a456-426614174000".
Definition seed_user1 : string := "123e4567-e89b-12d3-a456-426614174001".
Definition seed_user2 : string := "123e4567-e89b-12d3-a456-426614174002".

Definition seed_task_docs : Task :=
  mkTask "123e4567-e89b-12d3-a456-426614175004" seed_user1
    "Write documentation" (Some "Document the API endpoints and usage")
    pending low (Some "2023-03-01 00:00:00")
    "2023-01-20 00:00:00" "2023-01-20 00:00:00" None.

Definition seed_task_frontend : Task :=
  mkTask "123e4567-e89b-12d3-a456-426614175005" seed_user1
    "Implement frontend components" (Some "Create React components for the UI")
    in_progress medium (Some "2023-02-10 00:00:00")
    "2023-01-25 00:00:00" "2023-01-28 00:00:00" None.

Definition seed_task_cicd : Task :=
  mkTask "123e4567-e89b-12d3-a456-426614175006" seed_user2
    "Setup CI/CD pipeline" (Some "Configure continuous integration and deployment")
    pending high (Some "2023-02-05 00:00:00")
    "2023-01-30 00:00:00" "2023-01-30 00:00:00" None.

Definition seed_db : TaskDB :=
  {| users :=
       <[seed_admin := mkUser seed_admin "admin@example.com" "admin"]>
       (<[seed_user1 := mkUser seed_user1 "user1@example.com" "user1"]>
       (<[seed_user2 := mkUser seed_user2 "user2@example.com" "user2"]> ∅));
     tasks :=
       <[id seed_task_docs := seed_task_docs]>
       (<[id seed_task_frontend := seed_task_frontend]>
       (<[id seed_task_cicd := seed_task_cicd]> ∅)) |}.

End Model.

Export Model.

(** ** Tool executor (src/mcp/server.py) *)

Module Tools.

(** The payload of a successful tool result. *)
Inductive ToolData : Type :=
| TaskId (task_id : string)
| TaskRow (t : Task)
| TaskRows (ts : list Task)
| Deleted (task_id : string).

(** The uniform result dict [{"success": ..., "data" | "error": ...}]. *)
Inductive ToolResult : Type :=
| ToolOk (data : ToolData)
| ToolErr (error : string).

Definition success (r : ToolResult) : bool :=
  match r with ToolOk _ => true | ToolErr _ => false end.

(** Partial field updates of [update_task]. *)
Record TaskPatch : Type := mkPatch {
  p_title : option string;
  p_description : option string;
  p_status : option Status;
  p_priority : option Priority;
  p_due_date : option Timestamp
}.

(** A tool call as the agent emits it: one of the five fixed operations
    with its own arguments.  The user identifier travels separately. *)
Inductive ToolCall : Type :=
| add_task (title : string) (description : option string)
    (priority : option Priority) (due_date : option Timestamp)
| list_tasks (status_filter : option Status)
| complete_task (task_id : string)
| delete_task (task_id : string)
| update_task (task_id : string) (fields : TaskPatch).

(** Modelled from the spec: the row [add_task] creates.  The excerpt stops
    at [Task(user_id=str(user_uuid), ...)]; the elided arguments are the
    tool's own ([title], [description?], [priority?], [due_date?]), the
    identifier is the generated one, and status and priority take the
    column defaults of the tasks table ([pending], [medium]) where no value
    is given. *)
Definition new_task (new_id : string) (now : Timestamp) (user_uuid : string)
    (title : string) (description : option string)
    (priority : option Priority) (due_date : option Timestamp) : Task :=
  {| id := new_id; user_id := user_uuid; title := title;
     description := description; status := pending;
     priority := default medium priority; due_date := due_date;
     created_at := now; updated_at := now; completed_at := None |}.

(** Modelled from the spec: what [add_task] does with the row it built,
    "creates a Task owned by user_id; returns the new Task's identifier".
    The excerpt ends at the construction of the row.  The row goes into
    the tasks table, whose [id] column is the primary key
    (architecture.md): the database refuses a row whose key is taken and
    the table stays as it was. *)
Definition store_task (task : Task) (db : TaskDB) : Outcome ToolResult * TaskDB :=
  match tasks db !! id task with
  | Some _ => (Raised (IntegrityError "tasks_pkey"), db)
  | None =>
      (Returned (ToolOk (TaskId (id task))),
       set_tasks (insert (id task) task) db)
  end.

(** [handle_add_task]: the user row is looked up under [str(user_uuid)], a
    missing user gives the "User not found" result, otherwise the task is
    created with [user_id=str(user_uuid)] and stored.  [new_id] is the
    value the [gen_random_uuid()] default of the key column produces and
    [now] the clock. *)
Definition handle_add_task (new_id : string) (now : Timestamp)
    (user_uuid : string) (title : string) (description : option string)
    (priority : option Priority) (due_date : option Timestamp)
    (db : TaskDB) : Outcome ToolResult * TaskDB :=
  match users db !! user_uuid with
  | None => (Returned (ToolErr ("User not found: " +:+ user_uuid)), db)
  | Some _ =>
      let task :=
        new_task new_id now user_uuid title description priority due_date in
      store_task task db
  end.

(** The rows of [select(Task).where(Task.user_id == str(user_uuid))]. *)
Definition tasks_of_user (user_uuid : string) (db : TaskDB) : list Task :=
  filter (λ t, user_id t = user_uuid) (map_to_list (tasks db)).*2.

(** Modelled from the spec: the optional status filter of [list_tasks]
    ("returns all Tasks owned by user_id, optionally filtered"); the
    excerpt shows the owner query only. *)
Definition status_filtered (status_filter : option Status) (rows : list Task)
    : list Task :=
  match status_filter with
  | None => rows
  | Some s => filter (λ t, status t = s) rows
  end.

(** [handle_list_tasks]: the owner query of the excerpt, then the status
    filter. *)
Definition handle_list_tasks (user_uuid : string)
    (status_filter : option Status) (db : TaskDB) : Outcome ToolResult * TaskDB :=
  let query := tasks_of_user user_uuid db in
  (Returned (ToolOk (TaskRows (status_filtered status_filter query))), db).

(** The task a listing returned, [[]] for any other result. *)
Definition listed (r : Outcome ToolResult * TaskDB) : list Task :=
  match r.1 with
  | Returned (ToolOk (TaskRows ts)) => ts
  | _ => []
  end.

(** Modelled from the spec: what [complete_task] does to a task of the
    caller, "sets status to completed and stamps completion time"; the
    excerpt ends at the ownership check. *)
Definition mark_completed (now : Timestamp) (t : Task) : Task :=
  {| id := id t; user_id := user_id t; title := title t;
     description := description t; status := completed;
     priority := priority t; due_date := due_date t;
     created_at := created_at t; updated_at := now;
     completed_at := Some now |}.

(** [handle_complete_task]: [session.get(Task, id)], then
    [task.user_id != str(user_uuid)] answers "Task does not belong to the
    specified user".  The excerpt reads [task.user_id] with no test for
    [None], so a missing row is an [AttributeError].  A task of the caller
    is marked completed and stored. *)
Definition handle_complete_task (now : Timestamp) (user_uuid task_uuid : string)
    (db : TaskDB) : Outcome ToolResult * TaskDB :=
  match tasks db !! task_uuid with
  | None => (Raised (AttributeError "user_id"), db)
  | Some task =>
      if decide (user_id task ≠ user_uuid) then
        (Returned (ToolErr "Task does not belong to the specified user"), db)
      else
        let task' := mark_completed now task in
        (Returned (ToolOk (TaskRow task')), set_tasks (insert task_uuid task') db)
  end.

(** Modelled from the spec: [delete_task(user_id, task_id)], "same ownership
    check; removes the Task".  The handler is not part of the excerpt; the
    check is the one of [handle_complete_task]. *)
Definition handle_delete_task (user_uuid task_uuid : string) (db : TaskDB)
    : Outcome ToolResult * TaskDB :=
  match tasks db !! task_uuid with
  | None => (Raised (AttributeError "user_id"), db)
  | Some task =>
      if decide (user_id task ≠ user_uuid) then
        (Returned (ToolErr "Task does not belong to the specified user"), db)
      else
        (Returned (ToolOk (Deleted task_uuid)), set_tasks (delete task_uuid) db)
  end.

(** Modelled from the spec: "applies partial field updates": a field of the
    patch that is given replaces the task's, the others stay; identifier
    and owner are not patchable. *)
Definition apply_patch (now : Timestamp) (p : TaskPatch) (t : Task) : Task :=
  {| id := id t; user_id := user_id t;
     title := default (title t) (p_title p);
     description :=
       match p_description p with Some d => Some d | None => description t end;
     status := default (status t) (p_status p);
     priority := default (priority t) (p_priority p);
     due_date :=
       match p_due_date p with Some d => Some d | None => due_date t end;
     created_at := created_at t; updated_at := now;
     completed_at := completed_at t |}.

(** Modelled from the spec: [update_task(user_id, task_id, fields)], "same
    ownership check; applies partial field updates".  The handler is not
    part of the excerpt. *)
Definition handle_update_task (now : Timestamp) (user_uuid task_uuid : string)
    (fields : TaskPatch) (db : TaskDB) : Outcome ToolResult * TaskDB :=
  match tasks db !! task_uuid with
  | None => (Raised (AttributeError "user_id"), db)
  | Some task =>
      if decide (user_id task ≠ user_uuid) then
        (Returned (ToolErr "Task does not belong to the specified user"), db)
      else
        let task' := apply_patch now fields task in
        (Returned (ToolOk (TaskRow task')), set_tasks (insert task_uuid task') db)
  end.

(** The answer of the ownership check. *)
Definition not_yours : string := "Task does not belong to the specified user".

(** Dispatch over the fixed set of tools. *)
Definition run_tool (new_id : string) (now : Timestamp) (user_uuid : string)
    (call : ToolCall) (db : TaskDB) : Outcome ToolResult * TaskDB :=
  match call with
  | add_task t d p dd => handle_add_task new_id now user_uuid t d p dd db
  | list_tasks f => handle_list_tasks user_uuid f db
  | complete_task tid => handle_complete_task now user_uuid tid db
  | delete_task tid => handle_delete_task user_uuid tid db
  | update_task tid fields => handle_update_task now user_uuid tid fields db
  end.

End Tools.

(** ** Chat types, conversation store and orchestrator *)

Module Chat.

Import Tools.

(** [ChatRequest] of chatApi.ts: [{message, conversation_id?}]. *)
Record ChatRequest : Type := mkChatRequest {
  req_message : string;
  req_conversation_id : option Z
}.

(** A tool-call record: tool name, arguments, result. *)
Record ToolCallRecord : Type := mkToolCallRecord {
  tool_name : string;
  arguments : ToolCall;
  result : ToolResult
}.

(** [ChatResponse] of chatApi.ts, field for field. *)
Record ChatResponse : Type := mkChatResponse {
  success : bool;
  conversation_id : Z;
  response : string;
  tool_calls : list ToolCallRecord;
  message_id : Z;
  created_at : string
}.







(** *** Conversation store *)

Record Conversation : Type := mkConversation {
  conv_id : Z;
  conv_user_id : string;
  conv_title : option string;
  conv_created_at : Timestamp;
  conv_updated_at : Timestamp
}.

Inductive Role : Type := user | assistant | system.

Record Message : Type := mkMessage {
  msg_id : Z;
  msg_conversation_id : Z;
  msg_role : Role;
  msg_content : string;
  msg_tool_calls : list ToolCallRecord;
  msg_created_at : Timestamp
}.

Record ConversationStore : Type := mkStore {
  conversations : list Conversation;
  messages : list Message
}.

(** What one chat request can touch: the task tables (through the tools)
    and the conversation store. *)
Record World : Type := mkWorld {
  task_db : TaskDB;
  store : ConversationStore
}.

(** Modelled from the spec: the error taxonomy of section 7 and the status
    each kind is answered with. *)
Inductive ErrorKind : Type :=
| Unauthenticated | Forbidden | OwnershipMismatch | NotFound
| ValidationError | UpstreamAgentError.

Definition status_of (e : ErrorKind) : Z :=
  match e with
  | Unauthenticated => 401
  | Forbidden => 403
  | OwnershipMismatch => 403
  | NotFound => 404
  | ValidationError => 422
  | UpstreamAgentError => 502
  end.

(** Modelled from the spec: conversation and message identifiers are
    numbers the store generates; here the next key above all keys in use. *)
Definition next_id (ids : list Z) : Z := (1 + foldr Z.max 0 ids)%Z.

Definition find_conversation (cid : Z) (cs : list Conversation)
    : option Conversation :=
  List.find (λ c, bool_decide (conv_id c = cid)) cs.

Definition touch (now : Timestamp) (cid : Z) (c : Conversation) : Conversation :=
  if bool_decide (conv_id c = cid) then
    mkConversation (conv_id c) (conv_user_id c) (conv_title c)
      (conv_created_at c) now
  else c.

Definition tool_name_of (c : ToolCall) : string :=
  match c with
  | add_task _ _ _ _ => "add_task"
  | list_tasks _ => "list_tasks"
  | complete_task _ => "complete_task"
  | delete_task _ => "delete_task"
  | update_task _ _ => "update_task"
  end.

Section Orchestrator.

(** The hosted language-model agent: system context, history and message
    in; text and tool invocations out; [None] where the call fails. *)
Variable agent : string -> list Message -> string -> option (string * list ToolCall).

(** The Tool Executor as the orchestrator sees it: verified user
    identifier, tool call, task tables. *)
Variable exec_tool : string -> ToolCall -> TaskDB -> ToolResult * TaskDB.

Variable now : Timestamp.

(** Modelled from the spec: step 2 of the orchestrator, "if no id given,
    create a new Conversation owned by the user; if id given, load it and
    verify ownership (fails OwnershipMismatch otherwise)"; a missing record
    is [NotFound].  The backend route is not among the sources. *)
Definition resolve_conversation (user_id : string) (cid : option Z)
    (st : ConversationStore) : ErrorKind + Conversation * ConversationStore :=
  match cid with
  | None =>
      let c := mkConversation (next_id (conv_id <$> conversations st))
                 user_id None now now in
      inr (c, mkStore (conversations st ++ [c]) (messages st))
  | Some i =>
      match find_conversation i (conversations st) with
      | None => inl NotFound
      | Some c =>
          if decide (conv_user_id c ≠ user_id) then inl OwnershipMismatch
          else inr (c, st)
      end
  end.

(** Modelled from the spec: step 4, "for every tool call the agent
    requests, invoke the corresponding Tool Executor operation; collect
    each result". *)
Fixpoint execute_tools (user_id : string) (calls : list ToolCall) (db : TaskDB)
    : list ToolCallRecord * TaskDB :=
  match calls with
  | [] => ([], db)
  | c :: rest =>
      let '(r, db1) := exec_tool user_id c db in
      let '(rs, db2) := execute_tools user_id rest db1 in
      (mkToolCallRecord (tool_name_of c) c r :: rs, db2)
  end.

(** Modelled from the spec: the Chat Orchestrator of section 4.4 (resolve,
    dispatch with the context string "Current user ID: ...", execute the
    tools, persist both messages and bump [updated_at], respond).  The
    response is the [ChatResponse] of chatApi.ts. *)
Definition orchestrate (user_id : string) (request : ChatRequest) (w : World)
    : (ErrorKind + ChatResponse) * World :=
  match resolve_conversation user_id (req_conversation_id request) (store w) with
  | inl e => (inl e, w)
  | inr (c, st1) =>
      let history :=
        filter (λ m, msg_conversation_id m = conv_id c) (messages st1) in
      match agent ("Current user ID: " +:+ user_id) history (req_message request) with
      | None => (inl UpstreamAgentError, mkWorld (task_db w) st1)
      | Some (text, calls) =>
          let '(records, db') := execute_tools user_id calls (task_db w) in
          let mid := next_id (msg_id <$> messages st1) in
          let user_msg :=
            mkMessage mid (conv_id c) user (req_message request) [] now in
          let assistant_msg :=
            mkMessage (mid + 1) (conv_id c) assistant text records now in
          let st2 :=
            mkStore (touch now (conv_id c) <$> conversations st1)
                    (messages st1 ++ [user_msg; assistant_msg]) in
          (inr (mkChatResponse true (conv_id c) text records (mid + 1) now),
           mkWorld db' st2)
      end
  end.

(** The orchestrator as the body of the chat route: an error kind leaves
    as an [HTTPException] with its status. *)
Definition chat_body (user_id : string) (request : ChatRequest) (w : World)
    : Outcome ChatResponse * World :=
  match orchestrate user_id request w with
  | (inl e, w') => (Raised (HTTPException (status_of e) "chat failed"), w')
  | (inr r, w') => (Returned r, w')
  end.

End Orchestrator.

(** *** The chat page (chatkit-hosted.tsx, [sendMessage]) *)

Record ChatMessage : Type := mkChatMessage {
  cm_role : Role;
  cm_content : string;
  cm_toolCalls : list ToolCallRecord
}.

Record PageState : Type := mkPage {
  conversationId : option Z;
  page_messages : list ChatMessage
}.

(** JavaScript's [!conversationId] on a [number | null]. *)
Definition no_conversation (c : option Z) : bool :=
  match c with
  | None => true
  | Some n => bool_decide (n = 0%Z)
  end.

(** The request [sendMessage] hands to [chatApi.sendMessage]; [content] is
    the trimmed input, which the function has checked to be non-empty. *)
Definition sendMessage_request (p : PageState) (content : string) : ChatRequest :=
  mkChatRequest content (conversationId p).

(** The page after the user message is queued. *)
Definition sendMessage_queued (p : PageState) (content : string) : PageState :=
  mkPage (conversationId p) (page_messages p ++ [mkChatMessage user content []]).

(** The page after a response arrived: adopt the conversation id when
    there was none, append the assistant message. *)
Definition sendMessage_answered (p : PageState) (r : ChatResponse) : PageState :=
  mkPage (if no_conversation (conversationId p) then Some (conversation_id r)
          else conversationId p)
         (page_messages p ++ [mkChatMessage assistant (response r) (tool_calls r)]).

(** The page after a failed call: an error bubble, same conversation. *)
Definition sendMessage_failed (p : PageState) (status : Z) : PageState :=
  mkPage (conversationId p)
         (page_messages p ++
            [mkChatMessage assistant
               (if bool_decide (status = 401%Z)
                then "Authentication failed. Please log in again."
                else "Sorry, I encountered an error. Please try again.") []]).

(** One [sendMessage] of an authenticated user against the orchestrator. *)
Definition send_round
    (agent : string -> list Message -> string -> option (string * list ToolCall))
    (exec_tool : string -> ToolCall -> TaskDB -> ToolResult * TaskDB)
    (now : Timestamp) (user_id : string) (content : string)
    (pw : PageState * World) : PageState * World :=
  let p := sendMessage_queued pw.1 content in
  match orchestrate agent exec_tool now user_id
          (sendMessage_request pw.1 content) pw.2 with
  | (inr r, w') => (sendMessage_answered p r, w')
  | (inl e, w') => (sendMessage_failed p (status_of e), w')
  end.

End Chat.

(** ** JavaScript results *)

Module Js.

(** What a promise is rejected with: an [Error] with its message, the
    [TypeError] of a conversion that has no result, or the error of axios
    with the status of the response, if one came. *)
Inductive JsError : Type :=
| Error (message : string)
| TypeError
| AxiosError (status : option Z).

(** A settled promise. *)
Inductive Promise (A : Type) : Type :=
| Resolved (a : A)
| Rejected (e : JsError).

Arguments Resolved {A} a.
Arguments Rejected {A} e.

(** *** Numbers

    A JavaScript number is an IEEE 754 binary64 value: [spec_float] of the
    standard library, read at precision 53 ([valid_binary 53 1024]).  A
    finite [S754_finite s m e] has the value [m * 2^e], negated when [s]. *)
Module JsNumber.

Local Open Scope Z_scope.

(** The number an integer literal denotes: the nearest binary64 value. *)
Definition of_Z (n : Z) : spec_float := binary_normalize 53 1024 n 0 false.

(** The decimals that read back as [m * 2^e] are those between the
    midpoints to its two neighbours.  In quarters of [2^e] the upper
    midpoint is [4m + 2]; the lower one is [4m - 2], or [4m - 1] below a
    power of two, where the neighbour is half as far. *)
Definition low_quarters (m : positive) (e : Z) : Z :=
  if (Z.pos m =? 2 ^ 52) && (-1074 <? e) then 4 * Z.pos m - 1
  else 4 * Z.pos m - 2.

Definition high_quarters (m : positive) : Z := 4 * Z.pos m + 2.

(** [s * 10^q <= b/4 * 2^e] exactly when
    [s * weight_s e q <= b * weight_b e q]. *)
Definition weight_s (e q : Z) : Z := 4 * 10 ^ Z.max q 0 * 2 ^ Z.max (- e) 0.
Definition weight_b (e q : Z) : Z := 2 ^ Z.max e 0 * 10 ^ Z.max (- q) 0.

Definition ceil_div (a b : Z) : Z := (a + b - 1) / b.

(** The least and the greatest [s] for which [s * 10^q] reads back as
    [m * 2^e]; a midpoint itself does when [m] is even (ties go to the
    even mantissa). *)
Definition candidates (m : positive) (e q : Z) : Z * Z :=
  let U := weight_s e q in
  let V := weight_b e q in
  let lo := low_quarters m e * V in
  let hi := high_quarters m * V in
  if Z.even (Z.pos m) then (ceil_div lo U, hi / U)
  else (lo / U + 1, ceil_div hi U - 1).

(** The integer nearest to [m * 2^e / 10^q]. *)
Definition nearest (m : positive) (e q : Z) : Z :=
  let U := weight_s e q in
  let t := 4 * Z.pos m * weight_b e q in
  let fl := t / U in
  let r := t mod U in
  if 2 * r <? U then fl
  else if U <? 2 * r then fl + 1
  else if Z.even fl then fl else fl + 1.

(** The greatest [q], searched downwards, at which some [s * 10^q] reads
    back as the number, with the [s] nearest to it: the fewest digits. *)
Fixpoint shortest (fuel : nat) (m : positive) (e q : Z) : Z * Z :=
  match fuel with
  | O => (Z.pos m, e)
  | S fuel' =>
      let '(smin, smax) := candidates m e q in
      if smin <=? smax then (Z.max smin (Z.min smax (nearest m e q)), q)
      else shortest fuel' m e (q - 1)
  end.

(** The digits of [s] and the position [n] of the decimal point, as in
    step 5 of Number::toString ([10^(n-1) <= m * 2^e < 10^n] up to
    rounding), for a mantissa and an exponent in binary64 form.  The search
    starts above [log10 (m * 2^e)] and meets a candidate before [10^q]
    falls under the width of the rounding interval, which is within the
    fuel. *)
Definition digits_and_point (m : positive) (e : Z) : string * Z :=
  let bits := Z.pos (digits2_pos m) in
  let q0 := (bits + e) * 30103 / 100000 + 2 in
  let '(s, q) := shortest (Z.to_nat bits + 8) m e q0 in
  let digits := NilEmpty.string_of_int (Z.to_int s) in
  (digits, Z.of_nat (String.length digits) + q).

Fixpoint zeros (n : nat) : string :=
  match n with
  | O => ""
  | S n' => String "0" (zeros n')
  end.

(** Steps 6 to 10 of Number::toString: plain digits up to [10^21], a
    decimal point inside the digits, leading zeros down to [10^-7], and the
    exponent form everywhere else. *)
Definition render (digits : string) (n : Z) : string :=
  let k := Z.of_nat (String.length digits) in
  if (k <=? n) && (n <=? 21) then digits +:+ zeros (Z.to_nat (n - k))
  else if (0 <? n) && (n <=? 21) then
    String.substring 0 (Z.to_nat n) digits +:+ "." +:+
    String.substring (Z.to_nat n) (Z.to_nat (k - n)) digits
  else if (-6 <? n) && (n <=? 0) then
    "0." +:+ zeros (Z.to_nat (- n)) +:+ digits
  else
    let x := n - 1 in
    (if k =? 1 then digits
     else String.substring 0 1 digits +:+ "." +:+
          String.substring 1 (Z.to_nat (k - 1)) digits)
    +:+ "e" +:+ (if x <? 0 then "-" else "+")
    +:+ NilEmpty.string_of_int (Z.to_int (Z.abs x)).

(** The binary64 form of a number: 53 bits of mantissa, or the least
    exponent, which is where its neighbours are one unit apart.  A valid
    binary64 value is left as it is; any other mantissa and exponent are
    read as the nearest one. *)
Definition binary64 (x : spec_float) : spec_float :=
  match x with
  | S754_finite s m e => binary_round 53 1024 s m e
  | _ => x
  end.

(** [String(x)], which is also what a template literal makes of a
    number. *)
Definition toString (x : spec_float) : string :=
  match binary64 x with
  | S754_nan => "NaN"
  | S754_zero _ => "0"
  | S754_infinity s => (if s then "-" else "") +:+ "Infinity"
  | S754_finite s m e =>
      let '(digits, n) := digits_and_point m e in
      (if s then "-" else "") +:+ render digits n
  end.

(** [!!x]: every number but the zeros and [NaN]. *)
Definition truthy (x : spec_float) : bool :=
  match binary64 x with
  | S754_zero _ | S754_nan => false
  | _ => true
  end.

End JsNumber.

(** *** Values *)

(** A JSON value, as [JSON.parse] returns it.  The members of an object
    are listed in the order of the document. *)
#[warnings="-register-all"]
Inductive JValue : Type :=
| JNull
| JBool (b : bool)
| JNum (x : spec_float)
| JStr (s : string)
| JArr (items : list JValue)
| JObj (fields : list (string * JValue)).

(** What a variable of the clients can hold: [undefined], a JSON value, or
    a built-in function of the language, named by its property name. *)
Inductive Value : Type :=
| Undefined
| Json (v : JValue)
| Builtin (name : string).

(** JavaScript truthiness. *)
Definition truthy_json (v : JValue) : bool :=
  match v with
  | JNull => false
  | JBool b => b
  | JNum x => JsNumber.truthy x
  | JStr s => negb (String.eqb s "")
  | JArr _ => true
  | JObj _ => true
  end.

Definition truthy (v : Value) : bool :=
  match v with
  | Undefined => false
  | Json v => truthy_json v
  | Builtin _ => true
  end.

(** The own property [k] of a parsed object: of members with the same name
    the last one counts. *)
Fixpoint own (k : string) (fields : list (string * JValue)) : option JValue :=
  match fields with
  | [] => None
  | (k', v) :: rest =>
      match own k rest with
      | Some v' => Some v'
      | None => if String.eqb k' k then Some v else None
      end
  end.

(** The members the clients read from a decoded token payload. *)
Inductive Claim : Type := claim_sub | claim_email | claim_username.

Definition claim_name (c : Claim) : string :=
  match c with
  | claim_sub => "sub"
  | claim_email => "email"
  | claim_username => "username"
  end.

(** [payload?.c] for one of these members.  An object answers with its own
    member.  A string has none of its own but inherits the method
    [String.prototype.sub]; no prototype has an [email] or a [username],
    and those of numbers, booleans and arrays have no [sub] either.  On
    [null] the optional chain gives [undefined]. *)
Definition get (c : Claim) (payload : JValue) : Value :=
  match payload with
  | JObj fields =>
      match own (claim_name c) fields with
      | Some v => Json v
      | None => Undefined
      end
  | JStr _ =>
      match c with
      | claim_sub => Builtin "sub"
      | _ => Undefined
      end
  | _ => Undefined
  end.

(** [String(n)] for an integer below [10^21], which every array length
    is. *)
Definition decimal (n : Z) : string := NilEmpty.string_of_int (Z.to_int n).

Section Template.

(** [Function.prototype.toString] on a built-in function: the language
    leaves the exact text to the implementation. *)
Variable Function_toString : string -> string.

(** The string a JSON value becomes inside a template literal, [None]
    where the conversion throws a [TypeError].  An object prints as
    "[object Object]" through the inherited [toString]; a member of its own
    called [toString] hides that method and, as no JSON value can be
    called, leaves the object without a primitive value.  An array joins
    its elements with commas, [null] printing as nothing. *)
Fixpoint template_json (v : JValue) : option string :=
  match v with
  | JNull => Some "null"
  | JBool true => Some "true"
  | JBool false => Some "false"
  | JNum x => Some (JsNumber.toString x)
  | JStr s => Some s
  | JArr items =>
      (fix join (l : list JValue) : option string :=
         match l with
         | [] => Some ""
         | x :: rest =>
             match match x with JNull => Some "" | _ => template_json x end with
             | None => None
             | Some e =>
                 match rest with
                 | [] => Some e
                 | _ =>
                     match join rest with
                     | None => None
                     | Some r => Some (e +:+ "," +:+ r)
                     end
                 end
             end
         end) items
  | JObj fields =>
      match own "toString" fields with
      | Some _ => None
      | None => Some "[object Object]"
      end
  end.

(** The string a value becomes inside a template literal. *)
Definition template (v : Value) : option string :=
  match v with
  | Undefined => Some "undefined"
  | Json v => template_json v
  | Builtin name => Some (Function_toString name)
  end.

End Template.

(** [s.split(sep)] for a one-character separator. *)
Fixpoint split (sep : Ascii.ascii) (s : string) : list string :=
  match s with
  | EmptyString => [""]
  | String c rest =>
      if Ascii.eqb c sep then "" :: split sep rest
      else match split sep rest with
           | [] => [String c ""]
           | seg :: segs => String c seg :: segs
           end
  end.

(** [s.replace(/a/g, b)] for single characters. *)
Fixpoint replace_all (a b : Ascii.ascii) (s : string) : string :=
  match s with
  | EmptyString => EmptyString
  | String c rest =>
      String (if Ascii.eqb c a then b else c) (replace_all a b rest)
  end.

End Js.

Export Js.

(** ** The chat client (src/lib/chatApi.ts) *)

Module ChatApi.

Import Chat.

Record HttpRequest : Type := mkHttpRequest {
  method : string;
  url : string;
  http_headers : list (string * string);
  body : option ChatRequest
}.

Section Client.

Variable API_BASE_URL : string.

(** [Function.prototype.toString] of the engine, for [Js.template]. *)
Variable Function_toString : string -> string.

(** [atob]: the decoded bytes, [None] where it throws. *)
Variable atob : string -> option string.

(** The percent-escape and [decodeURIComponent] step: the UTF-8 decoding
    of the bytes, [None] where it throws. *)
Variable utf8_decode : string -> option string.

(** [JSON.parse]: the value of the document, whatever its kind, [None]
    where it throws. *)
Variable JSON_parse : string -> option JValue.

(** [axios] with a request: the settled promise of [response.data]. *)
Context {Data : Type}.
Variable axios : HttpRequest -> Promise Data.

Definition getAuthToken (localStorage : gmap string string) : option string :=
  localStorage !! "authToken".

(** [parseJwtPayload]: every exception inside the [try] is caught and
    answered with [null], which is [None] here; a parsed document is
    returned as it is, be it an object or not. *)
Definition parseJwtPayload (token : string) : option JValue :=
  match split "."%char token !! 1%nat with
  | None => None
  | Some base64Url =>
      let base64 := replace_all "_"%char "/"%char (replace_all "-"%char "+"%char base64Url) in
      match atob base64 with
      | None => None
      | Some bytes =>
          match utf8_decode bytes with
          | None => None
          | Some jsonPayload => JSON_parse jsonPayload
          end
      end
  end.

(** [getCurrentUserId]: [payload?.sub || null], with [None] for [null].
    The declared result type is [string | null], but the payload is [any]:
    whatever truthy value the member read yields is returned. *)
Definition getCurrentUserId (localStorage : gmap string string) : option Value :=
  match getAuthToken localStorage with
  | None => None
  | Some token =>
      if String.eqb token "" then None
      else
        let sub :=
          match parseJwtPayload token with
          | None => Undefined
          | Some payload => get claim_sub payload
          end in
        if truthy sub then Some sub else None
  end.

(** The guard every operation starts with: [!token || !userId] throws;
    otherwise the token and the user id continue. *)
Definition credentials (localStorage : gmap string string)
    : option (string * Value) :=
  match getAuthToken localStorage, getCurrentUserId localStorage with
  | Some token, Some userId =>
      if String.eqb token "" then None else Some (token, userId)
  | _, _ => None
  end.

(** An operation yields the requests it issued and its settled promise.
    [build] evaluates the arguments of the axios call; [None] is a
    template literal that threw, which rejects the operation before axios
    is called. *)
Definition guarded (localStorage : gmap string string)
    (build : string -> Value -> option HttpRequest)
    : list HttpRequest * Promise Data :=
  match credentials localStorage with
  | None => ([], Rejected (Error "Authentication required"))
  | Some (token, userId) =>
      match build token userId with
      | None => ([], Rejected TypeError)
      | Some rq => ([rq], axios rq)
      end
  end.

Definition sendMessage (request : ChatRequest) (localStorage : gmap string string)
    : list HttpRequest * Promise Data :=
  guarded localStorage (λ token userId,
    match template Function_toString userId with
    | None => None
    | Some segment =>
        Some (mkHttpRequest "POST"
                (API_BASE_URL +:+ "/" +:+ segment +:+ "/chat")
                [("Content-Type", "application/json");
                 ("Authorization", "Bearer " +:+ token)]
                (Some request))
    end).

Definition getConversation (conversationId : spec_float)
    (localStorage : gmap string string) : list HttpRequest * Promise Data :=
  guarded localStorage (λ token userId,
    match template Function_toString userId with
    | None => None
    | Some segment =>
        Some (mkHttpRequest "GET"
                (API_BASE_URL +:+ "/" +:+ segment +:+ "/conversations/"
                   +:+ JsNumber.toString conversationId)
                [("Authorization", "Bearer " +:+ token)]
                None)
    end).

Definition listConversations (limit offset : spec_float)
    (localStorage : gmap string string) : list HttpRequest * Promise Data :=
  guarded localStorage (λ token userId,
    match template Function_toString userId with
    | None => None
    | Some segment =>
        Some (mkHttpRequest "GET"
                (API_BASE_URL +:+ "/" +:+ segment +:+ "/conversations?limit="
                   +:+ JsNumber.toString limit +:+ "&offset="
                   +:+ JsNumber.toString offset)
                [("Authorization", "Bearer " +:+ token)]
                None)
    end).

Definition deleteConversation (conversationId : spec_float)
    (localStorage : gmap string string) : list HttpRequest * Promise Data :=
  guarded localStorage (λ token userId,
    match template Function_toString userId with
    | None => None
    | Some segment =>
        Some (mkHttpRequest "DELETE"
                (API_BASE_URL +:+ "/" +:+ segment +:+ "/conversations/"
                   +:+ JsNumber.toString conversationId)
                [("Authorization", "Bearer " +:+ token)]
                None)
    end).

(** The four operations under one name; the identifiers and the paging
    arguments are JavaScript numbers. *)
Inductive ClientOp : Type :=
| SendMessage (request : ChatRequest)
| GetConversation (conversationId : spec_float)
| ListConversations (limit offset : spec_float)
| DeleteConversation (conversationId : spec_float).

Definition run (op : ClientOp) (localStorage : gmap string string)
    : list HttpRequest * Promise Data :=
  match op with
  | SendMessage r => sendMessage r localStorage
  | GetConversation i => getConversation i localStorage
  | ListConversations l o => listConversations l o localStorage
  | DeleteConversation i => deleteConversation i localStorage
  end.

End Client.

(** The part of a request URL after the user identifier. *)
Definition url_tail (op : ClientOp) : string :=
  match op with
  | SendMessage _ => "/chat"
  | GetConversation i => "/conversations/" +:+ JsNumber.toString i
  | ListConversations l o =>
      "/conversations?limit=" +:+ JsNumber.toString l
        +:+ "&offset=" +:+ JsNumber.toString o
  | DeleteConversation i => "/conversations/" +:+ JsNumber.toString i
  end.


End ChatApi.

(** ** A chat request on its way from the client to the route *)

Module Delivery.

Import Auth Chat ChatApi.



Section Application.

Context {Resp W : Type}.
Variable jwt_decode : string -> string -> option (gmap string string).
Variable BETTER_AUTH_SECRET : string.
Variable get_token_data : Request -> Outcome TokenData.
Variable chat_body : string -> ChatRequest -> W -> Outcome Resp * W.


End Application.

End Delivery.

(** ** Mock authentication (mockAuthApi) and its caller (src/lib/authApi.ts) *)

Module AuthApi.

Record LoginCredentials : Type := mkLogin {
  l_email : string;
  l_password : string
}.

Record RegisterCredentials : Type := mkRegister {
  r_email : string;
  r_password : string;
  r_username : string
}.

Record MockUser : Type := mkMockUser {
  id : string;
  email : string;
  username : string;
  password : string
}.

Record UserInfo : Type := mkUserInfo {
  u_id : string;
  u_email : string;
  u_username : string
}.

(** The response bodies: the session of login and register, the
    acknowledgement of logout, the profile; [OtherData] is any other body
    the real backend may send. *)
Inductive AuthData : Type :=
| SessionData (success : bool) (token : string) (user : UserInfo) (message : string)
| AckData (success : bool) (message : string)
| ProfileData (user : UserInfo)
| OtherData (raw : string).

Record AxiosResponse : Type := mkAxiosResponse {
  data : AuthData;
  status : Z;
  statusText : string
}.

(** The JSON body of a POST, when there is one. *)
Inductive AuthBody : Type :=
| NoBody
| LoginBody (credentials : LoginCredentials)
| RegisterBody (credentials : RegisterCredentials).

Record AuthRequest : Type := mkAuthRequest {
  a_method : string;
  a_url : string;
  a_body : AuthBody
}.

(** The initial [MOCK_USERS]. *)
Definition MOCK_USERS : list MockUser :=
  [ mkMockUser "1" "admin@example.com" "admin" "admin123";
    mkMockUser "2" "user@example.com" "user" "user123";
    mkMockUser "3" "test@example.com" "testuser" "password123" ].

Record MockPayload : Type := mkMockPayload {
  mp_user_id : string;
  mp_email : string;
  mp_username : string;
  mp_exp : Z
}.

Definition info (u : MockUser) : UserInfo :=
  mkUserInfo (id u) (email u) (username u).

Section Mock.

(** [Date.now()], in milliseconds. *)
Variable Date_now : Z.

(** [btoa(JSON.stringify(payload))]. *)
Variable btoa_json : MockPayload -> string.

(** The [user_id] member of [JSON.parse(atob(segment))]; [None] where the
    decoding throws or the member is missing. *)
Variable decode_user_id : string -> option string.

Definition generateMockToken (userData : MockUser) : string :=
  let payload :=
    mkMockPayload (id userData) (email userData) (username userData)
      (Date_now / 1000 + 60 * 60 * 24 * 7)%Z in
  "mock.token." +:+ btoa_json payload.

(** The mock operations work on the in-memory user list; each yields the
    [data] member of its result, or throws. *)
Definition mock_login (credentials : LoginCredentials) (users : list MockUser)
    : Promise AuthData * list MockUser :=
  match List.find (λ u, String.eqb (email u) (l_email credentials)
                        && String.eqb (password u) (l_password credentials))
                  users with
  | None => (Rejected (Error "Invalid credentials"), users)
  | Some user =>
      (Resolved (SessionData true (generateMockToken user) (info user)
                   "Login successful"), users)
  end.

Definition mock_register (credentials : RegisterCredentials)
    (users : list MockUser) : Promise AuthData * list MockUser :=
  match List.find (λ u, String.eqb (email u) (r_email credentials)
                        || String.eqb (username u) (r_username credentials))
                  users with
  | Some _ => (Rejected (Error "Email or username already exists"), users)
  | None =>
      let newUser :=
        mkMockUser (decimal (Z.of_nat (length users) + 1))
          (r_email credentials) (r_username credentials)
          (r_password credentials) in
      (Resolved (SessionData true (generateMockToken newUser) (info newUser)
                   "Registration successful"), users ++ [newUser])
  end.

Definition mock_logout (users : list MockUser)
    : Promise AuthData * list MockUser :=
  (Resolved (AckData true "Logout successful"), users).

Definition mock_getProfile (localStorage : gmap string string)
    (users : list MockUser) : Promise AuthData * list MockUser :=
  match localStorage !! "authToken" with
  | None => (Rejected (Error "No token found"), users)
  | Some token =>
      if String.eqb token "" then (Rejected (Error "No token found"), users)
      else
        match split "."%char token with
        | [_; _; segment] =>
            match decode_user_id segment with
            | None => (Rejected (Error "Invalid token"), users)
            | Some uid =>
                match List.find (λ u, String.eqb (id u) uid) users with
                | None => (Rejected (Error "Invalid token"), users)
                | Some user => (Resolved (ProfileData (info user)), users)
                end
            end
        | _ => (Rejected (Error "Invalid token"), users)
        end
  end.

End Mock.

Section Api.

Variable API_BASE_URL : string.
Variable Date_now : Z.
Variable btoa_json : MockPayload -> string.
Variable decode_user_id : string -> option string.

(** [axios.get] / [axios.post]: a response resolves, anything else
    (network failure, a status outside 2xx) rejects. *)
Variable axios : AuthRequest -> Promise AxiosResponse.

Definition isBackendAvailable : bool :=
  match axios (mkAuthRequest "GET" (API_BASE_URL +:+ "/health") NoBody) with
  | Resolved response => bool_decide (status response = 200%Z)
  | Rejected _ => false
  end.

(** What both fallback branches do with the mock's result. *)
Definition from_mock (m : Promise AuthData * list MockUser)
    : Promise AxiosResponse * list MockUser :=
  match m.1 with
  | Resolved d => (Resolved (mkAxiosResponse d 200 "OK"), m.2)
  | Rejected e => (Rejected e, m.2)
  end.

Definition callWithFallback (realCall : unit -> Promise AxiosResponse)
    (mockCall : list MockUser -> Promise AuthData * list MockUser)
    (users : list MockUser) : Promise AxiosResponse * list MockUser :=
  if isBackendAvailable then
    match realCall tt with
    | Resolved r => (Resolved r, users)
    | Rejected _ => from_mock (mockCall users)
    end
  else from_mock (mockCall users).

Definition login (credentials : LoginCredentials) :=
  callWithFallback
    (λ _, axios (mkAuthRequest "POST" (API_BASE_URL +:+ "/auth/login")
               (LoginBody credentials)))
    (mock_login Date_now btoa_json credentials).

Definition register (credentials : RegisterCredentials) :=
  callWithFallback
    (λ _, axios (mkAuthRequest "POST" (API_BASE_URL +:+ "/auth/register")
               (RegisterBody credentials)))
    (mock_register Date_now btoa_json credentials).

Definition logout :=
  callWithFallback
    (λ _, axios (mkAuthRequest "POST" (API_BASE_URL +:+ "/auth/logout") NoBody))
    mock_logout.

Definition getProfile (localStorage : gmap string string) :=
  callWithFallback
    (λ _, axios (mkAuthRequest "GET" (API_BASE_URL +:+ "/auth/profile") NoBody))
    (mock_getProfile decode_user_id localStorage).

(** The four operations under one name, with the real call and the mock
    call each of them pairs. *)
Inductive AuthOp : Type :=
| Login (credentials : LoginCredentials)
| Register (credentials : RegisterCredentials)
| Logout
| GetProfile.

Definition run (op : AuthOp) (localStorage : gmap string string)
    (users : list MockUser) : Promise AxiosResponse * list MockUser :=
  match op with
  | Login c => login c users
  | Register c => register c users
  | Logout => logout users
  | GetProfile => getProfile localStorage users
  end.

Definition real_call (op : AuthOp) : Promise AxiosResponse :=
  match op with
  | Login c =>
      axios (mkAuthRequest "POST" (API_BASE_URL +:+ "/auth/login") (LoginBody c))
  | Register c =>
      axios (mkAuthRequest "POST" (API_BASE_URL +:+ "/auth/register")
               (RegisterBody c))
  | Logout =>
      axios (mkAuthRequest "POST" (API_BASE_URL +:+ "/auth/logout") NoBody)
  | GetProfile =>
      axios (mkAuthRequest "GET" (API_BASE_URL +:+ "/auth/profile") NoBody)
  end.

Definition mock_call (op : AuthOp) (localStorage : gmap string string)
    (users : list MockUser) : Promise AuthData * list MockUser :=
  match op with
  | Login c => mock_login Date_now btoa_json c users
  | Register c => mock_register Date_now btoa_json c users
  | Logout => mock_logout users
  | GetProfile => mock_getProfile decode_user_id localStorage users
  end.

End Api.

End AuthApi.

(** ** Stand-ins for the external collaborators

    Small concrete instances of the section variables above, used to run
    the definitions on examples. *)

Module Demo.

Import Auth Tools Chat.

(** A decoder that knows three tokens: one for the seed user [user1], one
    whose claims lack [sub], and nothing else verifies. *)
Definition jwt_decode (token key : string) : option (gmap string string) :=
  if String.eqb token "user1.jwt" then Some {[ "sub" := seed_user1 ]}
  else if String.eqb token "nosub.jwt" then Some {[ "email" := "x@example.com" ]}
  else None.

Definition secret : string := "your-better-auth-secret-key".

Definition get_token_data (req : Request) : Outcome TokenData :=
  match state_token_data req with
  | Some td => Returned td
  | None => Raised (HTTPException 401 "Not authenticated")
  end.

(** An agent that completes a task whatever it is asked. *)
Definition agent (context : string) (history : list Message) (message : string)
    : option (string * list ToolCall) :=
  Some ("Done.", [complete_task (id seed_task_cicd)]).

(** The tools with a fixed identifier source and clock; a raised exception
    is reported as a failed result. *)
Definition exec_tool (user_id : string) (call : ToolCall) (db : TaskDB)
    : ToolResult * TaskDB :=
  match run_tool "123e4567-e89b-12d3-a456-426614175999" "2023-02-01 00:00:00"
          user_id call db with
  | (Returned r, db') => (r, db')
  | (Raised _, db') => (ToolErr "tool raised", db')
  end.

Definition now : Timestamp := "2023-02-01 00:00:00".

Definition world : World := mkWorld seed_db (mkStore [] []).


Definition bearer (token : string) : gmap string string :=
  {[ "Authorization" := "Bearer " +:+ token ]}.

(** The text ["user1"], quotes included: a JSON document that is a
    string. *)
Definition json_user1 : string :=
  String (Ascii.ascii_of_nat 34) ("user1" +:+ String (Ascii.ascii_of_nat 34) "").

(** Browser routines.  [atob] decodes the one base64 segment used below
    ([InVzZXIxIg] is the text ["user1"] with its quotes) and is the
    identity on the other demo tokens, whose payload segment is written in
    clear; UTF-8 decoding is the identity on these texts; the JSON parser
    knows three documents. *)
Definition atob (s : string) : option string :=
  if String.eqb s "InVzZXIxIg" then Some json_user1 else Some s.
Definition utf8_decode (s : string) : option string := Some s.
Definition JSON_parse (s : string) : option JValue :=
  if String.eqb s "{sub:user1}" then Some (JObj [("sub", JStr seed_user1)])
  else if String.eqb s "{}" then Some (JObj [])
  else if String.eqb s json_user1 then Some (JStr "user1")
  else None.

(** The text V8 and JavaScriptCore give for a built-in function. *)
Definition Function_toString (name : string) : string :=
  "function " +:+ name +:+ "() { [native code] }".

Definition API_BASE_URL : string := "http://localhost:4000/api".

(** A network that answers every request with its URL. *)
Definition axios (rq : ChatApi.HttpRequest) : Promise string :=
  Resolved (ChatApi.url rq).

Definition signed_in : gmap string string :=
  {[ "authToken" := "h.{sub:user1}.s" ]}.

(** Auth backends: one that is down, and one that is up and rejects every
    login. *)
Definition btoa_json (p : AuthApi.MockPayload) : string := AuthApi.mp_user_id p.
Definition decode_user_id (s : string) : option string := Some s.

Definition backend_down (rq : AuthApi.AuthRequest)
    : Promise AuthApi.AxiosResponse :=
  Rejected (AxiosError None).

Definition backend_rejecting (rq : AuthApi.AuthRequest)
    : Promise AuthApi.AxiosResponse :=
  if String.eqb (AuthApi.a_method rq) "GET" then
    Resolved (AuthApi.mkAxiosResponse (AuthApi.OtherData "ok") 200 "OK")
  else Rejected (AxiosError (Some 401%Z)).

End Demo.

(** ** The axios client of the task pages (src/lib/api.ts) *)

Module ApiClient.

Record AxiosConfig : Type := mkConfig {
  cfg_method : string;
  cfg_url : string;
  cfg_headers : gmap string string
}.

(** The request interceptor: a truthy stored token becomes the
    [Authorization] header; the config is returned in every case. *)
Definition request_interceptor (localStorage : gmap string string)
    (config : AxiosConfig) : AxiosConfig :=
  match localStorage !! "authToken" with
  | Some token =>
      if String.eqb token "" then config
      else mkConfig (cfg_method config) (cfg_url config)
             (<["Authorization" := "Bearer " +:+ token]> (cfg_headers config))
  | None => config
  end.

(** The error branch of the response interceptor: [status] is
    [error.response?.status]; a 401 sends the window to [/login]; the
    error is rejected again either way.  The result is the new
    [window.location.href] and the rejection. *)
Definition response_error_interceptor {A : Type} (status : option Z)
    (location : string) : string * Promise A :=
  (if bool_decide (status = Some 401%Z) then "/login" else location,
   Rejected (AxiosError status)).

(** One call through [apiClient]: the request interceptor, the network,
    the response interceptors.  [adapter] is the network: the response, or
    the status of the failed response ([None] when none came).  The result
    is the new [window.location.href] and the settled promise; a response
    passes the first response interceptor as it is. *)
Definition call {A : Type} (adapter : AxiosConfig -> A + option Z)
    (localStorage : gmap string string) (location : string)
    (config : AxiosConfig) : string * Promise A :=
  match adapter (request_interceptor localStorage config) with
  | inl response => (location, Resolved response)
  | inr status => response_error_interceptor status location
  end.

(** The server-side request a config arrives as. *)
Definition as_request (config : AxiosConfig) : Auth.Request :=
  Auth.mkRequest (cfg_url config) (cfg_headers config) None.

End ApiClient.

(** ** Notifications (src/contexts/NotificationContext.tsx) *)

Module Notifications.

Inductive NotificationType : Type := success | error | warning | info.

Record NotificationData : Type := mkNotification {
  n_id : string;
  n_message : string;
  n_type : NotificationType
}.

(** [showNotification]; [id] is the string drawn from [Math.random()]. *)
Definition showNotification (id : string) (message : string)
    (type : NotificationType) (prev : list NotificationData)
    : list NotificationData :=
  prev ++ [mkNotification id message type].

(** [hideNotification]. *)
Definition hideNotification (id : string) (prev : list NotificationData)
    : list NotificationData :=
  filter (λ notification, n_id notification ≠ id) prev.

End Notifications.

(** ** The task page (src/pages/tasks.tsx) *)

Module TasksPage.

Import Notifications.

(** What a failed call carries: [err.response?.data?.message]. *)
Inductive ApiResult (A : Type) : Type :=
| ApiOk (a : A)
| ApiFailed (message : option string).

Arguments ApiOk {A} a.
Arguments ApiFailed {A} message.

(** The body of a request of the page. *)
Inductive ApiBody : Type :=
| NoData
| TaskData (taskData : Tools.TaskPatch)
| Completed (completed : bool).

Record ApiCall : Type := mkCall {
  c_method : string;
  c_url : string;
  c_body : ApiBody
}.

Record PageState : Type := mkPage {
  tasks : list Task;
  loading : bool;
  showForm : bool;
  editingTask : option Task
}.

(** A step of the page: the new state, the notifications it showed and the
    calls it made. *)
Record Step : Type := mkStep {
  after : PageState;
  shown : list (string * NotificationType);
  calls : list ApiCall
}.

(** JavaScript's [message || fallback] on an optional string. *)
Definition or_else (message : option string) (fallback : string) : string :=
  match message with
  | Some m => if String.eqb m "" then fallback else m
  | None => fallback
  end.

Section Page.

(** [apiClient] as the page uses it: [response.data.data.tasks] of a GET,
    [response.data.data.task] of a PUT, POST or PATCH, and the outcome of a
    DELETE. *)
Variable api_tasks : ApiCall -> ApiResult (list Task).
Variable api_task : ApiCall -> ApiResult Task.
Variable api_delete : ApiCall -> ApiResult unit.

Definition fetchTasks (st : PageState) : Step :=
  let call := mkCall "GET" "/tasks" NoData in
  match api_tasks call with
  | ApiOk ts =>
      mkStep (mkPage ts false (showForm st) (editingTask st))
        [("Tasks loaded successfully", info)] [call]
  | ApiFailed message =>
      mkStep (mkPage (tasks st) false (showForm st) (editingTask st))
        [(or_else message "Failed to load tasks. Please try again later.", error)]
        [call]
  end.

Definition handleCreateOrUpdate (taskData : Tools.TaskPatch) (st : PageState)
    : Step :=
  match editingTask st with
  | Some editing =>
      let call := mkCall "PUT" ("/tasks/" +:+ id editing) (TaskData taskData) in
      match api_task call with
      | ApiOk task =>
          mkStep
            (mkPage
               ((λ t, if bool_decide (id t = id editing) then task else t)
                  <$> tasks st)
               (loading st) false None)
            [("Task updated successfully", success)] [call]
      | ApiFailed message =>
          mkStep st
            [(or_else message "Failed to update task. Please try again.", error)]
            [call]
      end
  | None =>
      let call := mkCall "POST" "/tasks" (TaskData taskData) in
      match api_task call with
      | ApiOk task =>
          mkStep (mkPage (tasks st ++ [task]) (loading st) false None)
            [("Task created successfully", success)] [call]
      | ApiFailed message =>
          mkStep st
            [(or_else message "Failed to create task. Please try again.", error)]
            [call]
      end
  end.

(** [confirmed] is the answer of [window.confirm]. *)
Definition handleDelete (confirmed : bool) (taskId : string) (st : PageState)
    : Step :=
  if negb confirmed then mkStep st [] []
  else
    let call := mkCall "DELETE" ("/tasks/" +:+ taskId) NoData in
    match api_delete call with
    | ApiOk _ =>
        mkStep
          (mkPage (filter (λ t, id t ≠ taskId) (tasks st))
             (loading st) (showForm st) (editingTask st))
          [("Task deleted successfully", success)] [call]
    | ApiFailed message =>
        mkStep st
          [(or_else message "Failed to delete task. Please try again.", error)]
          [call]
    end.

Definition handleToggleComplete (task : Task) (st : PageState) : Step :=
  let call :=
    mkCall "PATCH" ("/tasks/" +:+ id task +:+ "/status")
      (Completed (bool_decide (status task ≠ completed))) in
  match api_task call with
  | ApiOk task' =>
      mkStep
        (mkPage
           ((λ t, if bool_decide (id t = id task) then task' else t)
              <$> tasks st)
           (loading st) (showForm st) (editingTask st))
        [(if bool_decide (status task = completed)
          then "Task marked as pending" else "Task marked as completed",
          success)]
        [call]
  | ApiFailed message =>
      mkStep st
        [(or_else message "Failed to update task status. Please try again.",
          error)]
        [call]
  end.

Definition handleEdit (task : Task) (st : PageState) : PageState :=
  mkPage (tasks st) (loading st) true (Some task).

Definition handleCancelForm (st : PageState) : PageState :=
  mkPage (tasks st) (loading st) false None.

End Page.

End TasksPage.

(** ** The auth context (src/contexts/AuthContext.tsx) *)

Module AuthContext.

Import AuthApi.

(** The [user] of the context.  [login] and [register] set it from the
    response; [verifyTokenAndSetUser] sets it from what it reads in the
    token payload. *)
Record User : Type := mkCtxUser {
  cu_id : Value;
  cu_email : Value;
  cu_username : Value
}.

Record AuthState : Type := mkAuthState {
  user : option User;
  loading : bool;
  localStorage : gmap string string;
  route : string
}.

Definition of_info (u : UserInfo) : User :=
  mkCtxUser (Json (JStr (u_id u))) (Json (JStr (u_email u)))
    (Json (JStr (u_username u))).

(** JavaScript's [payload.c || fallback]. *)
Definition claim_or (payload : JValue) (c : Claim) (fallback : string)
    : Value :=
  if truthy (get c payload) then get c payload else Json (JStr fallback).

Section Context.

Variable atob : string -> option string.
Variable utf8_decode : string -> option string.
Variable JSON_parse : string -> option JValue.

(** [parseJwtPayload] of the context is the function of chatApi.ts, line
    for line. *)
Definition parseJwtPayload : string -> option JValue :=
  ChatApi.parseJwtPayload atob utf8_decode JSON_parse.

(** [verifyTokenAndSetUser]: [payload && payload.sub] guards [setUser].
    [parseJwtPayload] catches its own exceptions and the member reads on a
    truthy payload do not throw, so the [catch] that would remove the token
    never runs. *)
Definition verifyTokenAndSetUser (token : string) (st : AuthState) : AuthState :=
  match parseJwtPayload token with
  | Some payload =>
      if truthy_json payload && truthy (get claim_sub payload) then
        mkAuthState
          (Some (mkCtxUser (get claim_sub payload)
                   (claim_or payload claim_email "user@example.com")
                   (claim_or payload claim_username "demo_user")))
          false (localStorage st) (route st)
      else mkAuthState (user st) false (localStorage st) (route st)
  | None => mkAuthState (user st) false (localStorage st) (route st)
  end.

(** The effect that runs once when the provider mounts. *)
Definition on_mount (st : AuthState) : AuthState :=
  match localStorage st !! "authToken" with
  | Some token =>
      if String.eqb token "" then
        mkAuthState (user st) false (localStorage st) (route st)
      else verifyTokenAndSetUser token st
  | None => mkAuthState (user st) false (localStorage st) (route st)
  end.

End Context.

(** The token and user of a response body ([response.data.token],
    [response.data.user]); bodies without these members give [None]. *)
Definition session_of (d : AuthData) : option (string * UserInfo) :=
  match d with
  | SessionData _ token user _ => Some (token, user)
  | _ => None
  end.

(** What [login] and [register] do with the settled call of [authApi]:
    store the token and the user and go to [/tasks], or rethrow; [loading]
    ends false.  The second component is the error thrown to the caller. *)
Definition settle (no_token : string) (response : Promise AxiosResponse)
    (st : AuthState) : AuthState * option JsError :=
  match response with
  | Rejected e =>
      (mkAuthState (user st) false (localStorage st) (route st), Some e)
  | Resolved r =>
      match session_of (data r) with
      | Some (token, u) =>
          if String.eqb token "" then
            (mkAuthState (user st) false (localStorage st) (route st),
             Some (Error no_token))
          else
            (mkAuthState (Some (of_info u)) false
               (<["authToken" := token]> (localStorage st)) "/tasks", None)
      | None =>
          (mkAuthState (user st) false (localStorage st) (route st),
           Some (Error no_token))
      end
  end.

Definition login (response : Promise AxiosResponse) (st : AuthState)
    : AuthState * option JsError :=
  settle "No token received from login" response st.

Definition register (response : Promise AxiosResponse) (st : AuthState)
    : AuthState * option JsError :=
  settle "No token received from registration" response st.

Definition logout (st : AuthState) : AuthState :=
  mkAuthState None (loading st) (delete "authToken" (localStorage st)) "/login".

(** [chatApi.isAuthenticated]: [!!getAuthToken()]. *)
Definition isAuthenticated (localStorage : gmap string string) : bool :=
  match ChatApi.getAuthToken localStorage with
  | Some token => negb (String.eqb token "")
  | None => false
  end.

End AuthContext.

(** ** The chat page's sidebar handlers (chatkit-hosted.tsx) *)

Module ChatPage.

Import Chat.

Record SidebarEntry : Type := mkEntry {
  sb_id : Z;
  sb_title : option string;
  sb_updated_at : string
}.

(** The state of the page: conversation and messages (the [PageState] of
    [sendMessage]), the sidebar list and whether it is open. *)
Record State : Type := mkState {
  page : PageState;
  conversations : list SidebarEntry;
  sidebarOpen : bool
}.

(** [Message] of chatApi.ts as far as the page reads it;
    [m_metadata_tool_calls] is [msg.metadata?.tool_calls]. *)
Record ServerMessage : Type := mkServerMessage {
  m_id : Z;
  m_role : Role;
  m_content : string;
  m_metadata_tool_calls : option (list ToolCallRecord);
  m_tool_calls : option (list ToolCallRecord)
}.

Definition handleNewChat (st : State) : State :=
  mkState (mkPage None []) (conversations st) false.

(** [msg.metadata?.tool_calls || msg.tool_calls]: an array is truthy even
    when empty; a missing value shows no tool calls. *)
Definition toolCalls_of (msg : ServerMessage) : list ToolCallRecord :=
  match m_metadata_tool_calls msg with
  | Some cs => cs
  | None => default [] (m_tool_calls msg)
  end.

Definition to_chat_message (msg : ServerMessage) : ChatMessage :=
  mkChatMessage (m_role msg) (m_content msg) (toolCalls_of msg).

(** [handleSelectConversation]; [response] is the settled
    [chatApi.getConversation(id)], already reduced to its messages. *)
Definition handleSelectConversation (id : Z)
    (response : Promise (list ServerMessage)) (st : State) : State :=
  match response with
  | Resolved msgs =>
      mkState (mkPage (Some id) (to_chat_message <$> msgs))
        (conversations st) false
  | Rejected _ => st
  end.

(** [handleDeleteConversation]; [confirmed] is the answer of [confirm],
    [response] the settled [chatApi.deleteConversation(id)].  The second
    component is the [alert] shown, the third whether the client was
    called. *)
Definition handleDeleteConversation (confirmed : bool) (id : Z)
    (response : Promise unit) (st : State) : State * option string * bool :=
  if negb confirmed then (st, None, false)
  else
    match response with
    | Resolved _ =>
        let st1 :=
          mkState (page st)
            (filter (λ c, sb_id c ≠ id) (conversations st)) (sidebarOpen st) in
        (if bool_decide (conversationId (page st) = Some id)
         then handleNewChat st1 else st1, None, true)
    | Rejected _ => (st, Some "Failed to delete conversation", true)
    end.

End ChatPage.

(** ** The conversation listing of the backend (src/routes/chat.py) *)

Module ConversationQueries.

Import Chat.

Section Query.

(** The store's order on [updated_at] values: [earlier a b] when [a] is not
    after [b]. *)
Variable earlier : Timestamp -> Timestamp -> bool.

(** [ORDER BY updated_at DESC]. *)
Definition newest_first (a b : Conversation) : Prop :=
  earlier (conv_updated_at b) (conv_updated_at a) = true.

#[global] Instance newest_first_dec : RelDecision newest_first.
Proof. intros a b. unfold newest_first. apply _. Defined.

(** The statement of "List Conversations":
    [select(Conversation).where(Conversation.user_id == uuid.UUID(user_id))
       .order_by(Conversation.updated_at.desc())]. *)
Definition list_conversations (user_uuid : string) (st : ConversationStore)
    : list Conversation :=
  merge_sort newest_first
    (filter (λ c, conv_user_id c = user_uuid) (conversations st)).

End Query.

End ConversationQueries.

(** ** More stand-ins *)

Module Demo2.

(** [atob] as a browser answers on the second segment of a mock token: the
    five characters of "token" are not base64. *)
Definition atob (s : string) : option string :=
  if String.eqb s "token" then None else Some s.

Definition api_tasks (c : TasksPage.ApiCall) : TasksPage.ApiResult (list Task) :=
  TasksPage.ApiOk [seed_task_docs; seed_task_frontend].

Definition api_task (c : TasksPage.ApiCall) : TasksPage.ApiResult Task :=
  TasksPage.ApiOk seed_task_cicd.

Definition api_delete (c : TasksPage.ApiCall) : TasksPage.ApiResult unit :=
  TasksPage.ApiOk tt.

Definition api_down {A : Type} (c : TasksPage.ApiCall) : TasksPage.ApiResult A :=
  TasksPage.ApiFailed None.

Definition tasks_page : TasksPage.PageState :=
  TasksPage.mkPage [seed_task_docs; seed_task_frontend] false false None.


Definition older : Chat.Conversation :=
  Chat.mkConversation 1 seed_user1 None "2023-02-01 00:00:00" "2023-02-01 00:00:00".
Definition newer : Chat.Conversation :=
  Chat.mkConversation 2 seed_user1 (Some "Groceries") "2023-02-02 00:00:00"
    "2023-02-03 00:00:00".
Definition foreign : Chat.Conversation :=
  Chat.mkConversation 3 seed_user2 None "2023-02-02 00:00:00" "2023-02-04 00:00:00".

Definition chat_store : Chat.ConversationStore :=
  Chat.mkStore [older; foreign; newer] [].

End Demo2.

(** ** Predicates used to state properties *)

Module Shapes.

(** [s.includes(c)] for one character. *)
Fixpoint has_char (c : Ascii.ascii) (s : string) : bool :=
  match s with
  | EmptyString => false
  | String d rest => Ascii.eqb d c || has_char c rest
  end.




(** The user list is numbered as [MOCK_USERS] is: the user at position [i]
    (from zero) has id [String(i + 1)]. *)
Definition numbered (users : list AuthApi.MockUser) : Prop :=
  forall i u, users !! i = Some u ->
    AuthApi.id u = decimal (Z.of_nat i + 1).


End Shapes.

(* ===================================================================== *)
(** * Part II. Properties                                                  *)
(* ===================================================================== *)

(** ** Token verifier and identity guard *)

Module AuthFacts.

Import Auth.

Lemma chat_path_under_api (user_id : string) :
  String.prefix "/api/" (chat_path user_id) = true.
Proof. unfold chat_path. simpl. by destruct (user_id +:+ "/chat"). Qed.

Section Verifier.

Variable jwt_decode : string -> string -> option (gmap string string).
Variable secret : string.

Lemma verify_token_sub (token : string) (claims : gmap string string)
    (sub : string) :
  jwt_decode token secret = Some claims ->
  claims !! "sub" = Some sub ->
  verify_token jwt_decode secret token = Returned (mkTokenData sub).
Proof. intros Hd Hs. unfold verify_token. by rewrite Hd, Hs. Qed.

Lemma verify_token_no_sub (token : string) (claims : gmap string string) :
  jwt_decode token secret = Some claims ->
  claims !! "sub" = None ->
  verify_token jwt_decode secret token
    = Raised (HTTPException 401 "Could not validate credentials").
Proof. intros Hd Hs. unfold verify_token. by rewrite Hd, Hs. Qed.

Lemma verify_token_undecodable (token : string) :
  jwt_decode token secret = None ->
  verify_token jwt_decode secret token = Raised JWTError.
Proof. intros Hd. unfold verify_token. by rewrite Hd. Qed.

(** A returned [TokenData] always carries the [sub] claim of the decoded
    token. *)
Lemma verify_token_returned (token sub : string) :
  verify_token jwt_decode secret token = Returned (mkTokenData sub) ->
  exists claims, jwt_decode token secret = Some claims /\ claims !! "sub" = Some sub.
Proof.
  unfold verify_token. intros H.
  destruct (jwt_decode token secret) as [claims|]; [|discriminate].
  destruct (claims !! "sub") as [s|] eqn:Hs; [|discriminate].
  exists claims. split; [done|]. congruence.
Qed.

Section Middleware.

Context {R W : Type}.
Variable call_next : Request -> W -> Outcome R * W.

(** An [/api/] request without an [Authorization] header, or with one that
    does not start with ["Bearer "], is answered 401 and never reaches
    [call_next]. *)
Lemma middleware_header_401 (request : Request) (w : W) :
  String.prefix "/api/" (url_path request) = true ->
  match headers request !! "Authorization" with
  | None => True
  | Some h => String.prefix "Bearer " h = false
  end ->
  verify_jwt_middleware jwt_decode secret request call_next w
    = (Raised (HTTPException 401 "Missing or invalid Authorization header"), w).
Proof.
  intros Hp Hh. unfold verify_jwt_middleware. rewrite Hp.
  destruct (headers request !! "Authorization") as [h|]; [|done].
  by rewrite Hh.
Qed.

(** A bearer token that decodes but has no [sub] claim is answered 401. *)
Lemma middleware_no_sub_401 (request : Request) (w : W) (h : string)
    (claims : gmap string string) :
  String.prefix "/api/" (url_path request) = true ->
  headers request !! "Authorization" = Some h ->
  String.prefix "Bearer " h = true ->
  jwt_decode (py_slice_from 7 h) secret = Some claims ->
  claims !! "sub" = None ->
  verify_jwt_middleware jwt_decode secret request call_next w
    = (Raised (HTTPException 401 "Could not validate credentials"), w).
Proof.
  intros Hp Hh Hb Hd Hs. unfold verify_jwt_middleware.
  rewrite Hp, Hh, Hb. simpl.
  by rewrite (verify_token_no_sub _ _ Hd Hs).
Qed.

(** A bearer token that verifies and carries a [sub] claim passes: the
    request continues with the token data attached. *)
Lemma middleware_pass (request : Request) (w : W) (h : string)
    (claims : gmap string string) (sub : string) :
  String.prefix "/api/" (url_path request) = true ->
  headers request !! "Authorization" = Some h ->
  String.prefix "Bearer " h = true ->
  jwt_decode (py_slice_from 7 h) secret = Some claims ->
  claims !! "sub" = Some sub ->
  verify_jwt_middleware jwt_decode secret request call_next w
    = call_next (set_token_data request (mkTokenData sub)) w.
Proof.
  intros Hp Hh Hb Hd Hs. unfold verify_jwt_middleware.
  rewrite Hp, Hh, Hb. simpl.
  by rewrite (verify_token_sub _ _ _ Hd Hs).
Qed.

(** C2 (the signature case, on the code): a bearer token that [jwt.decode]
    refuses leaves the middleware as the library's [JWTError], not as an
    [HTTPException]; the application assigns no 401 on this path, and
    [call_next] is not reached. *)
Theorem middleware_bad_signature_not_401 (request : Request) (w : W)
    (h : string) :
  String.prefix "/api/" (url_path request) = true ->
  headers request !! "Authorization" = Some h ->
  String.prefix "Bearer " h = true ->
  jwt_decode (py_slice_from 7 h) secret = None ->
  verify_jwt_middleware jwt_decode secret request call_next w
    = (Raised JWTError, w)
  /\ http_status (verify_jwt_middleware jwt_decode secret request call_next w).1
     <> Some 401%Z.
Proof.
  intros Hp Hh Hb Hd.
  assert (E : verify_jwt_middleware jwt_decode secret request call_next w
              = (Raised JWTError, w)).
  { unfold verify_jwt_middleware. rewrite Hp, Hh, Hb. simpl.
    by rewrite (verify_token_undecodable _ Hd). }
  split; [exact E|]. rewrite E. simpl. discriminate.
Qed.

End Middleware.

End Verifier.

Section Guard.

Context {Body Resp W : Type}.
Variable jwt_decode : string -> string -> option (gmap string string).
Variable secret : string.
Variable get_token_data : Request -> Outcome TokenData.
Variable chat_body : string -> Body -> W -> Outcome Resp * W.

(** The identity check of the route itself. *)
Lemma chat_guard (user_id : string) (request : Body) (req : Request) (w : W)
    (td : TokenData) :
  get_token_data req = Returned td ->
  td_user_id td <> user_id ->
  chat get_token_data chat_body user_id request req w
    = (Raised (HTTPException 403
                 "User ID in path does not match authenticated user"), w).
Proof.
  intros Ht Hne. unfold chat. rewrite Ht.
  destruct (decide (td_user_id td ≠ user_id)); [done|contradiction].
Qed.

Lemma chat_guard_pass (user_id : string) (request : Body) (req : Request)
    (w : W) :
  get_token_data req = Returned (mkTokenData user_id) ->
  chat get_token_data chat_body user_id request req w
    = chat_body user_id request w.
Proof.
  intros Ht. unfold chat. rewrite Ht. simpl.
  destruct (decide (user_id ≠ user_id)); [contradiction|done].
Qed.

(** [get_token_data] hands back what the middleware stored. *)
Hypothesis get_token_data_state : forall req td,
  state_token_data req = Some td -> get_token_data req = Returned td.

(** C1: a chat request whose bearer token verifies to a subject other than
    the [user_id] of its path is answered with [HTTPException] 403, and the
    state the handler body works on (task tables, conversation store, and
    with them every trace a tool would leave) is handed back as it came:
    the body after the check, and so every tool, is never run. *)
Theorem chat_mismatch_forbidden (user_id : string) (hdrs : gmap string string)
    (request : Body) (w : W) (h sub : string) :
  hdrs !! "Authorization" = Some h ->
  String.prefix "Bearer " h = true ->
  verify_token jwt_decode secret (py_slice_from 7 h) = Returned (mkTokenData sub) ->
  sub <> user_id ->
  post_chat jwt_decode secret get_token_data chat_body user_id hdrs request w
    = (Raised (HTTPException 403
                 "User ID in path does not match authenticated user"), w)
  /\ http_status
       (post_chat jwt_decode secret get_token_data chat_body
          user_id hdrs request w).1 = Some 403%Z.
Proof.
  intros Hh Hb Hv Hne.
  destruct (verify_token_returned _ _ _ _ Hv) as (claims & Hd & Hs).
  assert (E : post_chat jwt_decode secret get_token_data chat_body
                user_id hdrs request w
              = (Raised (HTTPException 403
                   "User ID in path does not match authenticated user"), w)).
  { unfold post_chat.
    rewrite (middleware_pass jwt_decode secret _ _ w h claims sub);
      [|apply chat_path_under_api|done..].
    apply (chat_guard _ _ _ _ (mkTokenData sub)); [|done].
    by apply get_token_data_state. }
  by rewrite E.
Qed.

End Guard.

(** The guard on the demo decoder: [user1]'s token on the path of
    [user2], with the orchestrator as the handler body. *)
Lemma chat_mismatch_forbidden_witness :
  post_chat Demo.jwt_decode Demo.secret Demo.get_token_data
    (Chat.chat_body Demo.agent Demo.exec_tool Demo.now)
    seed_user2 (Demo.bearer "user1.jwt")
    (Chat.mkChatRequest "complete my task" None) Demo.world
  = (Raised (HTTPException 403
               "User ID in path does not match authenticated user"), Demo.world)
  /\ http_status
       (post_chat Demo.jwt_decode Demo.secret Demo.get_token_data
          (Chat.chat_body Demo.agent Demo.exec_tool Demo.now)
          seed_user2 (Demo.bearer "user1.jwt")
          (Chat.mkChatRequest "complete my task" None) Demo.world).1
     = Some 403%Z.
Proof.
  apply (chat_mismatch_forbidden Demo.jwt_decode Demo.secret
           Demo.get_token_data
           (Chat.chat_body Demo.agent Demo.exec_tool Demo.now))
    with (h := "Bearer user1.jwt") (sub := seed_user1).
  - intros req td H. unfold Demo.get_token_data. by rewrite H.
  - reflexivity.
  - reflexivity.
  - reflexivity.
  - discriminate.
Defined.

(** The same request with the matching path does run the body: the agent's
    tool call completes [user2]'s task. *)
Example chat_match_runs_body :
  (post_chat Demo.jwt_decode Demo.secret Demo.get_token_data
     (Chat.chat_body Demo.agent Demo.exec_tool Demo.now)
     seed_user1 (Demo.bearer "user1.jwt")
     (Chat.mkChatRequest "complete my task" None) Demo.world).2
  <> Demo.world.
Proof. vm_compute. discriminate. Qed.

(** A forged token on the demo decoder. *)
Lemma middleware_bad_signature_witness :
  verify_jwt_middleware Demo.jwt_decode Demo.secret
    (mkRequest (chat_path seed_user1) (Demo.bearer "forged.jwt") None)
    (chat Demo.get_token_data
       (Chat.chat_body Demo.agent Demo.exec_tool Demo.now) seed_user1
       (Chat.mkChatRequest "hello" None))
    Demo.world
  = (Raised JWTError, Demo.world)
  /\ http_status
       (verify_jwt_middleware Demo.jwt_decode Demo.secret
          (mkRequest (chat_path seed_user1) (Demo.bearer "forged.jwt") None)
          (chat Demo.get_token_data
             (Chat.chat_body Demo.agent Demo.exec_tool Demo.now) seed_user1
             (Chat.mkChatRequest "hello" None))
          Demo.world).1
     <> Some 401%Z.
Proof.
  apply (middleware_bad_signature_not_401 Demo.jwt_decode Demo.secret)
    with (h := "Bearer forged.jwt"); reflexivity.
Defined.

End AuthFacts.

(** ** Tool executor *)

Module ToolFacts.

Import Tools.

(** The rows of the owner query are the rows of the table owned by the
    user. *)
Lemma tasks_of_user_elem (u : string) (db : TaskDB) (t : Task) :
  t ∈ tasks_of_user u db <-> user_id t = u /\ exists k, tasks db !! k = Some t.
Proof.
  unfold tasks_of_user. rewrite list_elem_of_filter, list_elem_of_fmap.
  split.
  - intros [Hu [[k t'] [-> Hin]]]. split; [done|].
    exists k. by apply elem_of_map_to_list.
  - intros [Hu [k Hk]]. split; [done|].
    exists (k, t). split; [done|]. by apply elem_of_map_to_list.
Qed.

Lemma listed_elem (u : string) (f : option Status) (db : TaskDB) (t : Task) :
  t ∈ listed (handle_list_tasks u f db) <->
  t ∈ tasks_of_user u db /\ match f with Some s => status t = s | None => True end.
Proof.
  unfold listed, handle_list_tasks, status_filtered. simpl.
  destruct f as [s|].
  - rewrite list_elem_of_filter. tauto.
  - tauto.
Qed.

(** C3: [list_tasks] always answers with a listing, every listed task is
    owned by the user it was called for, and under a status filter every
    listed task has that status; the task tables are left as they were. *)
Theorem list_tasks_only_own (u : string) (f : option Status) (db : TaskDB) :
  exists rows,
    handle_list_tasks u f db = (Returned (ToolOk (TaskRows rows)), db)
    /\ Forall (λ t, user_id t = u
                    /\ match f with Some s => status t = s | None => True end)
         rows.
Proof.
  eexists. split; [reflexivity|].
  apply Forall_forall. intros t Ht.
  assert (Hl : t ∈ listed (handle_list_tasks u f db)) by exact Ht.
  apply listed_elem in Hl as [Hown Hf].
  apply tasks_of_user_elem in Hown as [Hu _]. done.
Qed.

(** On the seed data: [user1] sees both of their tasks and not [user2]'s,
    and the filter narrows the listing. *)
Example list_tasks_seed_user1 :
  listed (handle_list_tasks seed_user1 None seed_db)
    = [seed_task_frontend; seed_task_docs]
  /\ listed (handle_list_tasks seed_user1 (Some pending) seed_db)
    = [seed_task_docs].
Proof. split; vm_compute; reflexivity. Qed.

(** C4: for a stored task, [complete_task] by anyone but the owner answers
    with the ownership message, which is not what a missing task gives (the
    two outcomes differ); by the owner it stores the task with status
    [completed] and the completion time stamped. *)
Theorem complete_task_ownership (now u tid : string) (db : TaskDB) (t : Task) :
  tasks db !! tid = Some t ->
  (user_id t <> u ->
     handle_complete_task now u tid db = (Returned (ToolErr not_yours), db)
     /\ forall db0, tasks db0 !! tid = None ->
          (handle_complete_task now u tid db0).1
            <> (handle_complete_task now u tid db).1)
  /\ (user_id t = u ->
     exists t',
       handle_complete_task now u tid db
         = (Returned (ToolOk (TaskRow t')), set_tasks (insert tid t') db)
       /\ tasks (handle_complete_task now u tid db).2 !! tid = Some t'
       /\ status t' = completed
       /\ completed_at t' = Some now
       /\ id t' = id t /\ user_id t' = user_id t /\ title t' = title t).
Proof.
  intros Ht. split.
  - intros Hne.
    assert (E : handle_complete_task now u tid db
                = (Returned (ToolErr not_yours), db)).
    { unfold handle_complete_task. rewrite Ht.
      destruct (decide (user_id t ≠ u)); [done|contradiction]. }
    split; [exact E|].
    intros db0 H0. rewrite E. unfold handle_complete_task. rewrite H0.
    simpl. discriminate.
  - intros Heq. exists (mark_completed now t).
    assert (E : handle_complete_task now u tid db
                = (Returned (ToolOk (TaskRow (mark_completed now t))),
                   set_tasks (insert tid (mark_completed now t)) db)).
    { unfold handle_complete_task. rewrite Ht.
      destruct (decide (user_id t ≠ u)); [contradiction|done]. }
    split; [exact E|]. rewrite E. simpl.
    split; [apply lookup_insert_eq|]. done.
Qed.

(** [user1] and then the owner [user2] complete [user2]'s seed task. *)
Lemma complete_task_ownership_witness :
  handle_complete_task Demo.now seed_user1 (id seed_task_cicd) seed_db
    = (Returned (ToolErr not_yours), seed_db)
  /\ exists t',
       tasks (handle_complete_task Demo.now seed_user2 (id seed_task_cicd)
                seed_db).2 !! id seed_task_cicd = Some t'
       /\ status t' = completed /\ completed_at t' = Some Demo.now.
Proof.
  split.
  - apply (complete_task_ownership Demo.now seed_user1 (id seed_task_cicd)
             seed_db seed_task_cicd); [reflexivity|discriminate].
  - destruct (complete_task_ownership Demo.now seed_user2 (id seed_task_cicd)
                seed_db seed_task_cicd eq_refl) as [_ H].
    destruct (H eq_refl) as (t' & _ & Hl & Hs & Hc & _).
    exists t'. auto.
Defined.

(** C5: [complete_task], [delete_task] and [update_task] on a task stored
    under another owner each return a failure result and hand back the task
    tables unchanged, so the task is the record it was. *)
Theorem foreign_task_untouched (now u tid : string) (fields : TaskPatch)
    (db : TaskDB) (t : Task) :
  tasks db !! tid = Some t ->
  user_id t <> u ->
  Forall (λ r : Outcome ToolResult * TaskDB,
            (exists e, r.1 = Returned (ToolErr e)
                       /\ success (ToolErr e) = false)
            /\ r.2 = db
            /\ tasks r.2 !! tid = Some t)
    [ handle_complete_task now u tid db;
      handle_delete_task u tid db;
      handle_update_task now u tid fields db ].
Proof.
  intros Ht Hne.
  unfold handle_complete_task, handle_delete_task, handle_update_task.
  rewrite Ht. destruct (decide (user_id t ≠ u)); [|contradiction].
  repeat constructor; simpl; eauto.
Qed.

Lemma foreign_task_untouched_witness :
  Forall (λ r : Outcome ToolResult * TaskDB,
            (exists e, r.1 = Returned (ToolErr e)
                       /\ success (ToolErr e) = false)
            /\ r.2 = seed_db
            /\ tasks r.2 !! id seed_task_cicd = Some seed_task_cicd)
    [ handle_complete_task Demo.now seed_user1 (id seed_task_cicd) seed_db;
      handle_delete_task seed_user1 (id seed_task_cicd) seed_db;
      handle_update_task Demo.now seed_user1 (id seed_task_cicd)
        (mkPatch (Some "mine now") None None None None) seed_db ].
Proof.
  apply (foreign_task_untouched Demo.now seed_user1 (id seed_task_cicd)
           (mkPatch (Some "mine now") None None None None)
           seed_db seed_task_cicd); [reflexivity|discriminate].
Defined.

(** The owner's delete and update do change the tables. *)
Example owner_delete_update :
  tasks (handle_delete_task seed_user2 (id seed_task_cicd) seed_db).2
    !! id seed_task_cicd = None
  /\ title <$> tasks (handle_update_task Demo.now seed_user2 (id seed_task_cicd)
                        (mkPatch (Some "Pipeline") None None None None)
                        seed_db).2 !! id seed_task_cicd
     = Some "Pipeline".
Proof. split; vm_compute; reflexivity. Qed.

(** What the primary key does to an insert. *)
Lemma store_task_fresh (task : Task) (db : TaskDB) :
  tasks db !! id task = None ->
  store_task task db
  = (Returned (ToolOk (TaskId (id task))), set_tasks (insert (id task) task) db).
Proof. intros H. unfold store_task. by rewrite H. Qed.

Lemma store_task_taken (task : Task) (db : TaskDB) :
  is_Some (tasks db !! id task) ->
  store_task task db = (Raised (IntegrityError "tasks_pkey"), db).
Proof. intros [t H]. unfold store_task. by rewrite H. Qed.

(** A row stored under an unused key changes no listing of another
    user. *)
Lemma listing_of_others_kept (u u' : string) (f : option Status)
    (t : Task) (db : TaskDB) :
  tasks db !! id t = None ->
  user_id t = u ->
  u' <> u ->
  listed (handle_list_tasks u' f (set_tasks (insert (id t) t) db))
    ≡ₚ listed (handle_list_tasks u' f db).
Proof.
  intros Hfresh Hu Hne.
  unfold listed, handle_list_tasks, tasks_of_user. simpl.
  assert (E : filter (λ t0, user_id t0 = u')
                (map_to_list (<[id t := t]> (tasks db))).*2
              ≡ₚ filter (λ t0, user_id t0 = u') (map_to_list (tasks db)).*2).
  { rewrite (map_to_list_insert (tasks db) (id t) t Hfresh).
    rewrite fmap_cons. simpl. rewrite filter_cons_False; [done|].
    congruence. }
  destruct f as [st|]; simpl; by rewrite E.
Qed.

(** C6: for an existing user, [add_task] with title "Buy milk" and priority
    low succeeds whenever the generated identifier is not yet a key of the
    tasks table, and whenever it succeeds the identifier it returns is the
    generated one and was no key before the call (it is fresh): every row
    stored before is still there unchanged, and under the new key lies a
    pending, low-priority task of that user called "Buy milk".  The user's
    next listing (unfiltered, or filtered on pending) contains the task; no
    listing of any other user does, and those listings are what they were.
    A generated identifier that is already a key creates nothing and
    replaces nothing. *)
Theorem add_task_buy_milk (new_id now u : string) (db : TaskDB) :
  is_Some (users db !! u) ->
  let r := handle_add_task new_id now u "Buy milk" None (Some low) None db in
  (tasks db !! new_id = None -> r.1 = Returned (ToolOk (TaskId new_id)))
  /\ (is_Some (tasks db !! new_id) ->
        r = (Raised (IntegrityError "tasks_pkey"), db))
  /\ forall i, r.1 = Returned (ToolOk (TaskId i)) ->
       i = new_id
       /\ tasks db !! i = None
       /\ (forall k, k <> i -> tasks r.2 !! k = tasks db !! k)
       /\ users r.2 = users db
       /\ exists t,
            tasks r.2 !! i = Some t
            /\ id t = i /\ user_id t = u /\ title t = "Buy milk"
            /\ status t = pending /\ priority t = low
            /\ t ∈ listed (handle_list_tasks u None r.2)
            /\ t ∈ listed (handle_list_tasks u (Some pending) r.2)
            /\ forall u' f, u' <> u ->
                 (t ∉ listed (handle_list_tasks u' f r.2))
                 /\ listed (handle_list_tasks u' f r.2)
                    ≡ₚ listed (handle_list_tasks u' f db).
Proof.
  intros [usr Hu]. cbv zeta.
  unfold handle_add_task. rewrite Hu.
  set (t := new_task new_id now u "Buy milk" None (Some low) None).
  assert (Hid : id t = new_id) by reflexivity.
  split; [|split].
  - intros Hfresh. rewrite store_task_fresh by (by rewrite Hid). by rewrite Hid.
  - intros Htaken. apply store_task_taken. by rewrite Hid.
  - intros i Hret.
    destruct (tasks db !! new_id) as [t0|] eqn:Hk.
    { rewrite store_task_taken in Hret by (rewrite Hid, Hk; eauto).
      discriminate. }
    assert (Hfresh : tasks db !! id t = None) by (by rewrite Hid).
    rewrite (store_task_fresh t db Hfresh) in *. simpl in Hret.
    injection Hret as <-. rewrite Hid in *.
    set (db' := set_tasks (insert new_id t) db).
    assert (Hl : tasks db' !! new_id = Some t) by apply lookup_insert_eq.
    assert (Hin : t ∈ tasks_of_user u db').
    { apply tasks_of_user_elem. split; [done|]. by exists new_id. }
    split; [done|]. split; [exact Hk|].
    split. { intros k Hne. simpl. by apply lookup_insert_ne. }
    split; [done|].
    exists t. do 6 (split; [done|]).
    split. { apply (listed_elem u None db' t). done. }
    split. { apply (listed_elem u (Some pending) db' t). done. }
    intros u' f Hne. split.
    + intros Habs. apply listed_elem in Habs as [Habs _].
      apply tasks_of_user_elem in Habs as [Habs _]. simpl in Habs. congruence.
    + pose proof (listing_of_others_kept u u' f t db Hfresh eq_refl Hne) as P.
      rewrite Hid in P. exact P.
Qed.

Lemma add_task_buy_milk_witness :
  exists t,
    tasks (handle_add_task "123e4567-e89b-12d3-a456-426614175007" Demo.now
             seed_user1 "Buy milk" None (Some low) None seed_db).2
      !! "123e4567-e89b-12d3-a456-426614175007" = Some t
    /\ tasks seed_db !! "123e4567-e89b-12d3-a456-426614175007" = None
    /\ status t = pending /\ priority t = low
    /\ t ∈ listed (handle_list_tasks seed_user1 None
                     (handle_add_task "123e4567-e89b-12d3-a456-426614175007"
                        Demo.now seed_user1 "Buy milk" None (Some low) None
                        seed_db).2)
    /\ (t ∉ listed (handle_list_tasks seed_user2 None
                      (handle_add_task "123e4567-e89b-12d3-a456-426614175007"
                         Demo.now seed_user1 "Buy milk" None (Some low) None
                         seed_db).2)).
Proof.
  destruct (add_task_buy_milk "123e4567-e89b-12d3-a456-426614175007" Demo.now
              seed_user1 seed_db) as (_ & _ & H).
  - eexists. reflexivity.
  - destruct (H "123e4567-e89b-12d3-a456-426614175007" eq_refl)
      as (_ & Hfresh & _ & _ & t & Hl & _ & _ & _ & Hs & Hp & Hin & _ & Hout).
    exists t. do 5 (split; [done|]).
    apply (Hout seed_user2 None). discriminate.
Defined.

(** A generated identifier that is already the key of another user's task
    leaves that task alone. *)
Example add_task_used_key :
  handle_add_task (id seed_task_cicd) Demo.now seed_user1
    "Buy milk" None (Some low) None seed_db
  = (Raised (IntegrityError "tasks_pkey"), seed_db).
Proof. reflexivity. Qed.

(** Without the user row nothing is created. *)
Example add_task_unknown_user :
  handle_add_task "123e4567-e89b-12d3-a456-426614175007" Demo.now "nobody"
    "Buy milk" None (Some low) None seed_db
  = (Returned (ToolErr "User not found: nobody"), seed_db).
Proof. reflexivity. Qed.

End ToolFacts.

(** ** Chat orchestrator, conversation store and response shape *)

Module ChatFacts.

Import Tools Chat.

Lemma next_id_above (ids : list Z) (i : Z) : i ∈ ids -> (i < next_id ids)%Z.
Proof.
  unfold next_id. induction ids as [|j ids IH]; intros Hin.
  - by apply not_elem_of_nil in Hin.
  - apply elem_of_cons in Hin as [->|Hin]; simpl; [lia|].
    specialize (IH Hin). lia.
Qed.

Lemma next_id_fresh (ids : list Z) : next_id ids ∉ ids.
Proof. intros Hin. apply next_id_above in Hin. lia. Qed.

Lemma next_id_positive (ids : list Z) : (0 < next_id ids)%Z.
Proof. unfold next_id. induction ids; simpl; lia. Qed.

Lemma find_conversation_last (cs : list Conversation) (c : Conversation) :
  conv_id c ∉ (conv_id <$> cs) ->
  find_conversation (conv_id c) (cs ++ [c]) = Some c.
Proof.
  unfold find_conversation. induction cs as [|c' cs IH]; intros Hf; simpl.
  - by rewrite bool_decide_eq_true_2.
  - rewrite fmap_cons, not_elem_of_cons in Hf. destruct Hf as [Hne Hf].
    rewrite bool_decide_eq_false_2 by congruence. by apply IH.
Qed.

Lemma touch_id (now : Timestamp) (cid : Z) (c : Conversation) :
  conv_id (touch now cid c) = conv_id c.
Proof. unfold touch. by destruct (bool_decide _). Qed.

Lemma touch_owner (now : Timestamp) (cid : Z) (c : Conversation) :
  conv_user_id (touch now cid c) = conv_user_id c.
Proof. unfold touch. by destruct (bool_decide _). Qed.

Lemma touch_ids (now : Timestamp) (cid : Z) (cs : list Conversation) :
  conv_id <$> (touch now cid <$> cs) = conv_id <$> cs.
Proof.
  induction cs as [|c cs IH]; [done|].
  rewrite !fmap_cons, touch_id. by f_equal.
Qed.

(** Touching a key no row has changes nothing. *)
Lemma touch_absent (now : Timestamp) (cid : Z) (cs : list Conversation) :
  cid ∉ (conv_id <$> cs) -> touch now cid <$> cs = cs.
Proof.
  induction cs as [|c cs IH]; intros Hf; [done|].
  rewrite fmap_cons, not_elem_of_cons in Hf. destruct Hf as [Hne Hf].
  rewrite fmap_cons, IH by done. f_equal.
  unfold touch. by rewrite bool_decide_eq_false_2.
Qed.

Section Conversations.

Variable agent : string -> list Message -> string -> option (string * list ToolCall).
Variable exec_tool : string -> ToolCall -> TaskDB -> ToolResult * TaskDB.

(** The agent call succeeds. *)
Hypothesis agent_answers : forall ctx hist msg, is_Some (agent ctx hist msg).

(** A request without id: one conversation is appended, owned by the
    caller, under a key no earlier conversation has, and the response
    names it. *)
Lemma orchestrate_new (now u m : string) (w : World) :
  exists resp c,
    orchestrate agent exec_tool now u (mkChatRequest m None) w
      = (inr resp, (orchestrate agent exec_tool now u (mkChatRequest m None) w).2)
    /\ conversations
         (store (orchestrate agent exec_tool now u (mkChatRequest m None) w).2)
       = conversations (store w) ++ [c]
    /\ conv_id c = conversation_id resp
    /\ conv_user_id c = u
    /\ (conv_id c ∉ conv_id <$> conversations (store w))
    /\ (0 < conv_id c)%Z.
Proof.
  unfold orchestrate. simpl.
  set (n := next_id (conv_id <$> conversations (store w))).
  set (c := mkConversation n u None now now).
  destruct (agent_answers ("Current user ID: " +:+ u)
              (filter (λ m0, msg_conversation_id m0 = n) (messages (store w))) m)
    as [[text calls] Ha].
  rewrite Ha.
  destruct (execute_tools exec_tool u calls (task_db w)) as [records db'] eqn:He.
  eexists _, c. simpl. split; [reflexivity|].
  assert (Hfresh : n ∉ (conv_id <$> conversations (store w)))
    by apply next_id_fresh.
  split.
  - rewrite fmap_app, touch_absent by done. simpl. f_equal.
    unfold touch. simpl. by rewrite bool_decide_eq_true_2.
  - repeat split; try done. apply next_id_positive.
Qed.

(** A request naming a conversation of the caller: no conversation is
    added or removed, and the two messages of the exchange are appended
    under that conversation. *)
Lemma orchestrate_existing (now u m : string) (w : World) (c : Conversation) :
  find_conversation (conv_id c) (conversations (store w)) = Some c ->
  conv_user_id c = u ->
  exists resp a b,
    orchestrate agent exec_tool now u (mkChatRequest m (Some (conv_id c))) w
      = (inr resp, (orchestrate agent exec_tool now u
                      (mkChatRequest m (Some (conv_id c))) w).2)
    /\ conversation_id resp = conv_id c
    /\ conv_id <$> conversations
         (store (orchestrate agent exec_tool now u
                   (mkChatRequest m (Some (conv_id c))) w).2)
       = conv_id <$> conversations (store w)
    /\ messages (store (orchestrate agent exec_tool now u
                          (mkChatRequest m (Some (conv_id c))) w).2)
       = messages (store w) ++ [a; b]
    /\ msg_conversation_id a = conv_id c /\ msg_role a = user
    /\ msg_content a = m
    /\ msg_conversation_id b = conv_id c /\ msg_role b = assistant
    /\ msg_content b = response resp.
Proof.
  intros Hfind Hown. unfold orchestrate. simpl. rewrite Hfind.
  destruct (decide (conv_user_id c ≠ u)); [contradiction|].
  destruct (agent_answers ("Current user ID: " +:+ u)
              (filter (λ m0, msg_conversation_id m0 = conv_id c)
                 (messages (store w))) m)
    as [[text calls] Ha].
  rewrite Ha.
  destruct (execute_tools exec_tool u calls (task_db w)) as [records db'] eqn:He.
  eexists _, _, _. simpl. split; [reflexivity|].
  split; [reflexivity|]. split; [apply touch_ids|].
  split; [reflexivity|]. simpl. done.
Qed.

(** C7: a first [sendMessage] from a page with no conversation creates
    exactly one conversation, owned by the sender, and the page adopts the
    identifier the response returns; the second [sendMessage] carries that
    identifier, adds no conversation, and appends its two messages to that
    same conversation. *)
Theorem first_message_creates_second_reuses (now1 now2 u m1 m2 : string)
    (w : World) (p0 : PageState) :
  conversationId p0 = None ->
  let r1 := orchestrate agent exec_tool now1 u (sendMessage_request p0 m1) w in
  exists resp1 c,
    r1.1 = inr resp1
    /\ conversations (store r1.2) = conversations (store w) ++ [c]
    /\ conv_id c = conversation_id resp1
    /\ conv_user_id c = u
    /\ (conv_id c ∉ conv_id <$> conversations (store w))
    /\ let p1 := sendMessage_answered (sendMessage_queued p0 m1) resp1 in
       conversationId p1 = Some (conversation_id resp1)
       /\ req_conversation_id (sendMessage_request p1 m2)
          = Some (conversation_id resp1)
       /\ let r2 := orchestrate agent exec_tool now2 u
                      (sendMessage_request p1 m2) r1.2 in
          exists resp2 a b,
            r2.1 = inr resp2
            /\ conversation_id resp2 = conversation_id resp1
            /\ conv_id <$> conversations (store r2.2)
               = conv_id <$> conversations (store r1.2)
            /\ length (conversations (store r2.2))
               = S (length (conversations (store w)))
            /\ messages (store r2.2) = messages (store r1.2) ++ [a; b]
            /\ msg_conversation_id a = conversation_id resp1
            /\ msg_role a = user /\ msg_content a = m2
            /\ msg_conversation_id b = conversation_id resp1
            /\ msg_role b = assistant
            /\ conversationId
                 (sendMessage_answered (sendMessage_queued p1 m2) resp2)
               = Some (conversation_id resp1).
Proof.
  intros Hp0. cbv zeta.
  assert (Hreq : sendMessage_request p0 m1 = mkChatRequest m1 None).
  { unfold sendMessage_request. by rewrite Hp0. }
  rewrite Hreq.
  destruct (orchestrate_new now1 u m1 w)
    as (resp1 & c & E1 & Hcs & Hid & Hown & Hfresh & Hpos).
  set (r1 := orchestrate agent exec_tool now1 u (mkChatRequest m1 None) w) in *.
  exists resp1, c.
  set (p1 := sendMessage_answered (sendMessage_queued p0 m1) resp1).
  assert (Hp1 : conversationId p1 = Some (conversation_id resp1)).
  { unfold p1, sendMessage_answered, sendMessage_queued. simpl. by rewrite Hp0. }
  assert (Hreq2 : sendMessage_request p1 m2 = mkChatRequest m2 (Some (conv_id c))).
  { unfold sendMessage_request. by rewrite Hp1, Hid. }
  assert (Hfind : find_conversation (conv_id c) (conversations (store r1.2))
                  = Some c).
  { rewrite Hcs. by apply find_conversation_last. }
  destruct (orchestrate_existing now2 u m2 r1.2 c Hfind Hown)
    as (resp2 & a & b & E2 & Hr & Hids & Hmsgs & Ha1 & Ha2 & Ha3 & Hb1 & Hb2 & _).
  split; [by rewrite E1|]. do 4 (split; [done|]).
  split; [exact Hp1|].
  split; [by rewrite Hreq2, Hid|].
  rewrite Hreq2.
  set (r2 := orchestrate agent exec_tool now2 u
               (mkChatRequest m2 (Some (conv_id c))) r1.2) in *.
  exists resp2, a, b.
  split; [by rewrite E2|].
  split; [congruence|]. split; [done|].
  split.
  { rewrite <- (length_fmap conv_id), Hids, length_fmap, Hcs, length_app.
    simpl. lia. }
  split; [done|]. split; [congruence|]. do 2 (split; [done|]).
  split; [congruence|]. split; [done|].
  change (conversationId (sendMessage_answered (sendMessage_queued p1 m2) resp2))
    with (if no_conversation (conversationId p1)
          then Some (conversation_id resp2) else conversationId p1).
  rewrite Hp1. unfold no_conversation.
  rewrite bool_decide_eq_false_2; [done|]. rewrite <- Hid. lia.
Qed.

End Conversations.

Lemma first_message_creates_second_reuses_witness :
  let r1 := orchestrate Demo.agent Demo.exec_tool Demo.now seed_user2
              (sendMessage_request (mkPage None []) "finish the pipeline")
              Demo.world in
  exists resp1 c,
    r1.1 = inr resp1
    /\ conversations (store r1.2) = conversations (store Demo.world) ++ [c]
    /\ conv_id c = conversation_id resp1
    /\ conv_user_id c = seed_user2.
Proof.
  destruct (first_message_creates_second_reuses Demo.agent Demo.exec_tool
              ltac:(intros; eexists; reflexivity)
              Demo.now "2023-02-01 00:05:00" seed_user2
              "finish the pipeline" "thanks" Demo.world (mkPage None [])
              eq_refl)
    as (resp1 & c & H1 & H2 & H3 & H4 & _).
  exists resp1, c. auto.
Defined.

(** Two rounds on the demo world: one conversation, four messages, and
    the page keeps the identifier. *)
Example two_rounds_demo :
  let pw1 := send_round Demo.agent Demo.exec_tool Demo.now seed_user2
               "finish the pipeline" (mkPage None [], Demo.world) in
  let pw2 := send_round Demo.agent Demo.exec_tool Demo.now seed_user2
               "thanks" pw1 in
  conversationId pw1.1 = Some 1%Z
  /\ conversationId pw2.1 = Some 1%Z
  /\ conv_id <$> conversations (store pw2.2) = [1%Z]
  /\ msg_conversation_id <$> messages (store pw2.2) = [1; 1; 1; 1]%Z.
Proof. vm_compute. repeat split. Qed.

(** A conversation of somebody else is refused. *)
Example foreign_conversation_refused :
  let pw1 := send_round Demo.agent Demo.exec_tool Demo.now seed_user2
               "finish the pipeline" (mkPage None [], Demo.world) in
  (orchestrate Demo.agent Demo.exec_tool Demo.now seed_user1
     (mkChatRequest "let me in" (Some 1%Z)) pw1.2).1 = inl OwnershipMismatch.
Proof. vm_compute. reflexivity. Qed.

End ChatFacts.

(** ** The shape of the chat response *)

Module ShapeFacts.

Import Chat.



(** The assistant bubble of the page shows the member [response]. *)
Lemma page_shows_response (p : PageState) (r : ChatResponse) :
  last (page_messages (sendMessage_answered p r))
    = Some (mkChatMessage assistant (response r) (tool_calls r)).
Proof. unfold sendMessage_answered. simpl. apply last_snoc. Qed.

End ShapeFacts.

(** ** The chat client *)

Module ClientFacts.

Import Chat ChatApi.

Section Client.

Variable API_BASE_URL : string.
Variable Function_toString : string -> string.
Variable atob : string -> option string.
Variable utf8_decode : string -> option string.
Variable JSON_parse : string -> option JValue.
Context {Data : Type}.
Variable axios : HttpRequest -> Promise Data.

Local Abbreviation parse := (parseJwtPayload atob utf8_decode JSON_parse).
Local Abbreviation current := (getCurrentUserId atob utf8_decode JSON_parse).
Local Abbreviation run_op :=
  (run API_BASE_URL Function_toString atob utf8_decode JSON_parse axios).



Lemma guarded_throws (ls : gmap string string)
    (build : string -> Value -> option HttpRequest) :
  current ls = None ->
  guarded atob utf8_decode JSON_parse axios ls build
    = ([], Rejected (Error "Authentication required")).
Proof.
  intros Hn. unfold guarded, credentials. rewrite Hn.
  by destruct (getAuthToken ls).
Qed.



End Client.


(** On the demo browser: a signed-in user, a missing token, a token whose
    payload has no [sub], and a token without dots. *)
Example client_signed_in :
  (sendMessage Demo.API_BASE_URL Demo.Function_toString Demo.atob
     Demo.utf8_decode Demo.JSON_parse
     Demo.axios (mkChatRequest "hello" None) Demo.signed_in).2
  = Resolved
      "http://localhost:4000/api/123e4567-e89b-12d3-a456-426614174001/chat".
Proof. vm_compute. reflexivity. Qed.

Example client_signed_out :
  run Demo.API_BASE_URL Demo.Function_toString Demo.atob Demo.utf8_decode
    Demo.JSON_parse Demo.axios
    (ListConversations (JsNumber.of_Z 50) (JsNumber.of_Z 0)) ∅
  = ([], Rejected (Error "Authentication required"))
  /\ run Demo.API_BASE_URL Demo.Function_toString Demo.atob Demo.utf8_decode
       Demo.JSON_parse Demo.axios
       (DeleteConversation (JsNumber.of_Z 7)) {[ "authToken" := "h.{}.s" ]}
     = ([], Rejected (Error "Authentication required"))
  /\ run Demo.API_BASE_URL Demo.Function_toString Demo.atob Demo.utf8_decode
       Demo.JSON_parse Demo.axios
       (GetConversation (JsNumber.of_Z 7)) {[ "authToken" := "no-dots" ]}
     = ([], Rejected (Error "Authentication required")).
Proof. repeat split; vm_compute; reflexivity. Qed.

(** The paging arguments and the identifiers print as JavaScript prints
    numbers. *)
Example client_lists_conversations :
  (run Demo.API_BASE_URL Demo.Function_toString Demo.atob Demo.utf8_decode
     Demo.JSON_parse Demo.axios
     (ListConversations (JsNumber.of_Z 50) (JsNumber.of_Z 0))
     Demo.signed_in).2
  = Resolved
      ("http://localhost:4000/api/123e4567-e89b-12d3-a456-426614174001"
         +:+ "/conversations?limit=50&offset=0")
  /\ url_tail (GetConversation (JsNumber.of_Z (10 ^ 21)))
     = "/conversations/1e+21"
  /\ url_tail (GetConversation (S754_finite false 3 (-1)))
     = "/conversations/1.5".
Proof. repeat split; vm_compute; reflexivity. Qed.

(** Number::toString on integers, fractions, both exponent forms and the
    ends of the range. *)
Example number_toString_samples :
  JsNumber.toString <$>
    [ JsNumber.of_Z 0; JsNumber.of_Z 42; JsNumber.of_Z (-7);
      JsNumber.of_Z (10 ^ 21 - 1); JsNumber.of_Z 123456789012345680000;
      JsNumber.of_Z (2 ^ 53 + 1); JsNumber.of_Z (2 ^ 70);
      S754_finite false 3 (-1); S754_finite false 7205759403792794 (-56);
      S754_finite false 1 (-20); S754_finite true 1 (-1074);
      S754_finite false 9007199254740991 971;
      S754_infinity true; S754_nan; S754_zero true ]
  = [ "0"; "42"; "-7"; "1e+21"; "123456789012345680000";
      "9007199254740992"; "1.1805916207174113e+21";
      "1.5"; "0.1"; "9.5367431640625e-7"; "-5e-324";
      "1.7976931348623157e+308"; "-Infinity"; "NaN"; "0" ].
Proof. vm_compute. reflexivity. Qed.

(** What a template literal makes of claims that are not strings. *)
Example template_of_claims :
  template Demo.Function_toString (Json (JNum (JsNumber.of_Z (10 ^ 21))))
    = Some "1e+21"
  /\ template Demo.Function_toString (Json (JNum (JsNumber.of_Z 42)))
     = Some "42"
  /\ template Demo.Function_toString
       (Json (JArr [JNum (JsNumber.of_Z 1); JNull; JArr [JStr "a"; JBool true]]))
     = Some "1,,a,true"
  /\ template Demo.Function_toString (Json (JObj [("id", JStr "u")]))
     = Some "[object Object]"
  /\ template Demo.Function_toString (Json (JObj [("toString", JNull)]))
     = None.
Proof. repeat split; vm_compute; reflexivity. Qed.

End ClientFacts.

(** ** The auth client and its mock fallback *)

Module AuthApiFacts.

Import AuthApi.

(** C10, as stated, fails: with the backend down, a login the mock does
    not know is rejected with the mock's error, no status-200 response
    comes back; the same holds for a duplicate registration and for a
    profile read without a token. *)
Lemma fallback_can_reject :
  (login "http://localhost:4000/api/v1" 0 Demo.btoa_json Demo.backend_down
     (mkLogin "nobody@example.com" "wrong") MOCK_USERS).1
  = Rejected (Error "Invalid credentials")
  /\ (register "http://localhost:4000/api/v1" 0 Demo.btoa_json
        Demo.backend_down
        (mkRegister "admin@example.com" "pw" "root") MOCK_USERS).1
     = Rejected (Error "Email or username already exists")
  /\ (getProfile "http://localhost:4000/api/v1" Demo.decode_user_id
        Demo.backend_down ∅ MOCK_USERS).1
     = Rejected (Error "No token found").
Proof. repeat split. Qed.

Section Api.

Variable API_BASE_URL : string.
Variable Date_now : Z.
Variable btoa_json : MockPayload -> string.
Variable decode_user_id : string -> option string.
Variable axios : AuthRequest -> Promise AxiosResponse.

Local Abbreviation run_op :=
  (run API_BASE_URL Date_now btoa_json decode_user_id axios).
Local Abbreviation mock_op :=
  (mock_call Date_now btoa_json decode_user_id).

(** Both failure paths of [callWithFallback] end in the mock. *)
Lemma callWithFallback_mock (realCall : unit -> Promise AxiosResponse)
    (mockCall : list MockUser -> Promise AuthData * list MockUser)
    (users : list MockUser) :
  isBackendAvailable API_BASE_URL axios = false
  \/ (exists e, realCall tt = Rejected e) ->
  callWithFallback API_BASE_URL axios realCall mockCall users
    = from_mock (mockCall users).
Proof.
  unfold callWithFallback. intros [Hdown|[e He]].
  - by rewrite Hdown.
  - rewrite He. by destruct (isBackendAvailable API_BASE_URL axios).
Qed.

(** A real call that resolves while the backend is up is returned as is. *)
Lemma callWithFallback_real (realCall : unit -> Promise AxiosResponse)
    (mockCall : list MockUser -> Promise AuthData * list MockUser)
    (users : list MockUser) (r : AxiosResponse) :
  isBackendAvailable API_BASE_URL axios = true ->
  realCall tt = Resolved r ->
  callWithFallback API_BASE_URL axios realCall mockCall users
    = (Resolved r, users).
Proof. unfold callWithFallback. by intros -> ->. Qed.

Lemma run_falls_back (op : AuthOp) (ls : gmap string string)
    (users : list MockUser) :
  isBackendAvailable API_BASE_URL axios = false
  \/ (exists e, real_call API_BASE_URL axios op = Rejected e) ->
  run_op op ls users = from_mock (mock_op op ls users).
Proof.
  intros H. destruct op; simpl;
    unfold login, register, logout, getProfile;
    by apply callWithFallback_mock.
Qed.

(** C10, amended: whenever the health check fails or the real call throws,
    each of login, register, logout and getProfile answers from the mock;
    when the mock call succeeds the answer is the mock's data under status
    200 "OK", whatever the real backend said, and when the mock call throws
    its error reaches the caller.  Logout always succeeds in the mock. *)
Theorem auth_falls_back_to_mock (op : AuthOp) (ls : gmap string string)
    (users : list MockUser) :
  isBackendAvailable API_BASE_URL axios = false
  \/ (exists e, real_call API_BASE_URL axios op = Rejected e) ->
  (forall d users',
     mock_op op ls users = (Resolved d, users') ->
     run_op op ls users = (Resolved (mkAxiosResponse d 200 "OK"), users'))
  /\ (forall e users',
     mock_op op ls users = (Rejected e, users') ->
     run_op op ls users = (Rejected e, users'))
  /\ (op = Logout ->
      run_op op ls users
        = (Resolved (mkAxiosResponse (AckData true "Logout successful")
                       200 "OK"), users)).
Proof.
  intros H. rewrite (run_falls_back op ls users H).
  split; [|split].
  - intros d users' Hm. by rewrite Hm.
  - intros e users' Hm. by rewrite Hm.
  - by intros ->.
Qed.

End Api.

(** The backend is up and rejects the login with 401; the mock knows the
    credentials, and the caller gets a 200 with a mock token. *)
Lemma auth_falls_back_to_mock_witness :
  run "http://localhost:4000/api/v1" 0 Demo.btoa_json Demo.decode_user_id
    Demo.backend_rejecting (Login (mkLogin "admin@example.com" "admin123"))
    ∅ MOCK_USERS
  = (Resolved
       (mkAxiosResponse
          (SessionData true "mock.token.1"
             (mkUserInfo "1" "admin@example.com" "admin") "Login successful")
          200 "OK"),
     MOCK_USERS).
Proof.
  apply (auth_falls_back_to_mock "http://localhost:4000/api/v1" 0
           Demo.btoa_json Demo.decode_user_id Demo.backend_rejecting
           (Login (mkLogin "admin@example.com" "admin123")) ∅ MOCK_USERS).
  - right. eexists. reflexivity.
  - reflexivity.
Defined.

(** Registration through the fallback grows the in-memory user list, so
    the new account can log in afterwards. *)
Example register_then_login :
  let r := register "http://localhost:4000/api/v1" 0 Demo.btoa_json
             Demo.backend_down (mkRegister "new@example.com" "pw" "newbie")
             MOCK_USERS in
  length r.2 = 4%nat
  /\ (login "http://localhost:4000/api/v1" 0 Demo.btoa_json Demo.backend_down
        (mkLogin "new@example.com" "pw") r.2).1
     = Resolved
         (mkAxiosResponse
            (SessionData true "mock.token.4"
               (mkUserInfo "4" "new@example.com" "newbie") "Login successful")
            200 "OK").
Proof. vm_compute. split; reflexivity. Qed.

End AuthApiFacts.

(** ** Further properties of the code *)

Module MoreFacts.

Import Auth Tools.

(** X1: on an [/api/] path a request without [Authorization] header, or
    with one that does not start with ["Bearer "], is answered with
    [HTTPException] 401 by the middleware and goes no further. *)
Theorem bearer_header_required {R W : Type}
    (jwt_decode : string -> string -> option (gmap string string))
    (secret : string) (request : Request)
    (call_next : Request -> W -> Outcome R * W) (w : W) :
  String.prefix "/api/" (url_path request) = true ->
  headers request !! "Authorization" = None
  \/ (exists h, headers request !! "Authorization" = Some h
                /\ String.prefix "Bearer " h = false) ->
  verify_jwt_middleware jwt_decode secret request call_next w
    = (Raised (HTTPException 401 "Missing or invalid Authorization header"), w)
  /\ http_status (verify_jwt_middleware jwt_decode secret request call_next w).1
     = Some 401%Z.
Proof.
  intros Hp Hh.
  assert (E : verify_jwt_middleware jwt_decode secret request call_next w
              = (Raised (HTTPException 401
                           "Missing or invalid Authorization header"), w)).
  { apply AuthFacts.middleware_header_401; [done|].
    destruct Hh as [->|(h & -> & Hb)]; done. }
  by rewrite E.
Qed.

Lemma bearer_header_required_witness :
  verify_jwt_middleware Demo.jwt_decode Demo.secret
    (mkRequest (chat_path seed_user1) {[ "Authorization" := "Basic dXNlcg==" ]}
       None)
    (chat Demo.get_token_data
       (Chat.chat_body Demo.agent Demo.exec_tool Demo.now) seed_user1
       (Chat.mkChatRequest "hello" None))
    Demo.world
  = (Raised (HTTPException 401 "Missing or invalid Authorization header"),
     Demo.world).
Proof.
  apply (bearer_header_required Demo.jwt_decode Demo.secret).
  - reflexivity.
  - right. exists "Basic dXNlcg==". split; reflexivity.
Defined.

(** X2: a bearer token that decodes under the secret but carries no [sub]
    claim is answered with [HTTPException] 401 "Could not validate
    credentials". *)
Theorem missing_sub_unauthenticated {R W : Type}
    (jwt_decode : string -> string -> option (gmap string string))
    (secret : string) (request : Request)
    (call_next : Request -> W -> Outcome R * W) (w : W) (h : string)
    (claims : gmap string string) :
  String.prefix "/api/" (url_path request) = true ->
  headers request !! "Authorization" = Some h ->
  String.prefix "Bearer " h = true ->
  jwt_decode (py_slice_from 7 h) secret = Some claims ->
  claims !! "sub" = None ->
  http_status (verify_jwt_middleware jwt_decode secret request call_next w).1
    = Some 401%Z
  /\ (verify_jwt_middleware jwt_decode secret request call_next w).2 = w.
Proof.
  intros Hp Hh Hb Hd Hs.
  by rewrite (AuthFacts.middleware_no_sub_401 jwt_decode secret call_next
                request w h claims Hp Hh Hb Hd Hs).
Qed.

Lemma missing_sub_unauthenticated_witness :
  http_status
    (verify_jwt_middleware Demo.jwt_decode Demo.secret
       (mkRequest (chat_path seed_user1) (Demo.bearer "nosub.jwt") None)
       (chat Demo.get_token_data
          (Chat.chat_body Demo.agent Demo.exec_tool Demo.now) seed_user1
          (Chat.mkChatRequest "hello" None))
       Demo.world).1
  = Some 401%Z.
Proof.
  apply (missing_sub_unauthenticated Demo.jwt_decode Demo.secret _ _ _
           "Bearer nosub.jwt" {[ "email" := "x@example.com" ]});
    reflexivity.
Defined.

(** X3: a bearer token that decodes under the secret and carries a [sub]
    claim passes the middleware: the rest of the application runs on the
    request with [token_data.user_id] set to that claim. *)
Theorem verified_token_passes {R W : Type}
    (jwt_decode : string -> string -> option (gmap string string))
    (secret : string) (request : Request)
    (call_next : Request -> W -> Outcome R * W) (w : W) (h : string)
    (claims : gmap string string) (sub : string) :
  String.prefix "/api/" (url_path request) = true ->
  headers request !! "Authorization" = Some h ->
  String.prefix "Bearer " h = true ->
  jwt_decode (py_slice_from 7 h) secret = Some claims ->
  claims !! "sub" = Some sub ->
  verify_jwt_middleware jwt_decode secret request call_next w
    = call_next (set_token_data request (mkTokenData sub)) w
  /\ state_token_data (set_token_data request (mkTokenData sub))
     = Some (mkTokenData sub).
Proof.
  intros Hp Hh Hb Hd Hs. split; [|done].
  by apply (AuthFacts.middleware_pass jwt_decode secret call_next
              request w h claims sub).
Qed.

Lemma verified_token_passes_witness :
  verify_jwt_middleware Demo.jwt_decode Demo.secret
    (mkRequest (chat_path seed_user1) (Demo.bearer "user1.jwt") None)
    (λ req (w : unit),
       (Returned (td_user_id <$> state_token_data req), w)) tt
  = (Returned (Some seed_user1), tt).
Proof.
  destruct (verified_token_passes Demo.jwt_decode Demo.secret
              (mkRequest (chat_path seed_user1) (Demo.bearer "user1.jwt") None)
              (λ req (w : unit),
                 (Returned (td_user_id <$> state_token_data req), w)) tt
              "Bearer user1.jwt" {[ "sub" := seed_user1 ]} seed_user1)
    as [H _]; [reflexivity..|exact H].
Defined.

(** X4: the middleware checks nothing outside [/api/]: any other path goes
    straight to the rest of the application, token or not. *)
Theorem outside_api_unchecked {R W : Type}
    (jwt_decode : string -> string -> option (gmap string string))
    (secret : string) (request : Request)
    (call_next : Request -> W -> Outcome R * W) (w : W) :
  String.prefix "/api/" (url_path request) = false ->
  verify_jwt_middleware jwt_decode secret request call_next w
    = call_next request w.
Proof. intros Hp. unfold verify_jwt_middleware. by rewrite Hp. Qed.

Lemma outside_api_unchecked_witness :
  verify_jwt_middleware Demo.jwt_decode Demo.secret
    (mkRequest "/health" ∅ None)
    (λ req (w : unit), (Returned (url_path req), w)) tt
  = (Returned "/health", tt).
Proof.
  apply (outside_api_unchecked Demo.jwt_decode Demo.secret
           (mkRequest "/health" ∅ None)
           (λ req (w : unit), (Returned (url_path req), w)) tt).
  reflexivity.
Defined.

(** X5: a chat request whose verified subject equals the path [user_id]
    passes the identity check: the answer is the handler body's. *)
Theorem matching_subject_runs_body {Body Resp W : Type}
    (jwt_decode : string -> string -> option (gmap string string))
    (secret : string) (get_token_data : Request -> Outcome TokenData)
    (chat_body : string -> Body -> W -> Outcome Resp * W)
    (user_id : string) (hdrs : gmap string string) (request : Body) (w : W)
    (h : string) (claims : gmap string string) :
  (forall req td, state_token_data req = Some td ->
                  get_token_data req = Returned td) ->
  hdrs !! "Authorization" = Some h ->
  String.prefix "Bearer " h = true ->
  jwt_decode (py_slice_from 7 h) secret = Some claims ->
  claims !! "sub" = Some user_id ->
  post_chat jwt_decode secret get_token_data chat_body user_id hdrs request w
    = chat_body user_id request w.
Proof.
  intros Hg Hh Hb Hd Hs. unfold post_chat.
  rewrite (AuthFacts.middleware_pass jwt_decode secret _ _ w h claims user_id);
    [|apply AuthFacts.chat_path_under_api|done..].
  apply AuthFacts.chat_guard_pass. by apply Hg.
Qed.

Lemma matching_subject_runs_body_witness :
  post_chat Demo.jwt_decode Demo.secret Demo.get_token_data
    (λ (u : string) (m : string) (w : unit), (Returned (u +:+ m), w))
    seed_user1 (Demo.bearer "user1.jwt") ": hello" tt
  = (Returned (seed_user1 +:+ ": hello"), tt).
Proof.
  apply (matching_subject_runs_body Demo.jwt_decode Demo.secret
           Demo.get_token_data
           (λ (u : string) (m : string) (w : unit), (Returned (u +:+ m), w))
           seed_user1 (Demo.bearer "user1.jwt") ": hello" tt
           "Bearer user1.jwt" {[ "sub" := seed_user1 ]}).
  - intros req td H. unfold Demo.get_token_data. by rewrite H.
  - reflexivity.
  - reflexivity.
  - reflexivity.
  - reflexivity.
Defined.

(** X6: the owner query is complete: every row of the task table owned by
    the user is in the unfiltered listing. *)
Theorem list_tasks_all_own (u k : string) (db : TaskDB) (t : Task) :
  tasks db !! k = Some t ->
  user_id t = u ->
  t ∈ listed (handle_list_tasks u None db).
Proof.
  intros Hk Hu. apply (ToolFacts.listed_elem u None db t). split; [|done].
  apply ToolFacts.tasks_of_user_elem. split; [done|]. by exists k.
Qed.

Lemma list_tasks_all_own_witness :
  seed_task_cicd ∈ listed (handle_list_tasks seed_user2 None seed_db).
Proof.
  apply (list_tasks_all_own seed_user2 (id seed_task_cicd) seed_db
           seed_task_cicd); reflexivity.
Defined.

(** X7: [add_task] for a user identifier with no user row answers "User
    not found" and creates nothing. *)
Theorem add_task_unknown_user_rejected (new_id now u title : string)
    (description : option string) (priority : option Priority)
    (due_date : option Timestamp) (db : TaskDB) :
  users db !! u = None ->
  handle_add_task new_id now u title description priority due_date db
    = (Returned (ToolErr ("User not found: " +:+ u)), db).
Proof. intros Hu. unfold handle_add_task. by rewrite Hu. Qed.

Lemma add_task_unknown_user_rejected_witness :
  handle_add_task "123e4567-e89b-12d3-a456-426614175007" Demo.now "ghost"
    "Buy milk" None (Some low) None seed_db
  = (Returned (ToolErr "User not found: ghost"), seed_db).
Proof.
  apply (add_task_unknown_user_rejected
           "123e4567-e89b-12d3-a456-426614175007" Demo.now "ghost" "Buy milk"
           None (Some low) None seed_db).
  reflexivity.
Defined.

Import AuthApi.

(** X8: with the backend up and the real call resolving, [callWithFallback]
    returns the real response untouched and the mock is not consulted. *)
Theorem real_response_passes_through (API_BASE_URL : string)
    (axios : AuthRequest -> Promise AxiosResponse)
    (realCall : unit -> Promise AxiosResponse)
    (mockCall : list MockUser -> Promise AuthData * list MockUser)
    (users : list MockUser) (healthy r : AxiosResponse) :
  axios (mkAuthRequest "GET" (API_BASE_URL +:+ "/health") NoBody)
    = Resolved healthy ->
  status healthy = 200%Z ->
  realCall tt = Resolved r ->
  callWithFallback API_BASE_URL axios realCall mockCall users
    = (Resolved r, users).
Proof.
  intros Hh Hs Hr. apply AuthApiFacts.callWithFallback_real; [|done].
  unfold isBackendAvailable. rewrite Hh, Hs. done.
Qed.

Lemma real_response_passes_through_witness :
  getProfile "http://localhost:4000/api/v1" Demo.decode_user_id
    Demo.backend_rejecting ∅ MOCK_USERS
  = (Resolved (mkAxiosResponse (OtherData "ok") 200 "OK"), MOCK_USERS).
Proof.
  apply (real_response_passes_through "http://localhost:4000/api/v1"
           Demo.backend_rejecting _ _ MOCK_USERS
           (mkAxiosResponse (OtherData "ok") 200 "OK")
           (mkAxiosResponse (OtherData "ok") 200 "OK")); reflexivity.
Defined.


End MoreFacts.

(** ** Strings between client and server *)

Module StringFacts.

Import Auth Shapes.
Local Open Scope char_scope.
Local Open Scope string_scope.
Local Open Scope list_scope.

Lemma substring_all (s : string) : String.substring 0 (String.length s) s = s.
Proof. induction s as [|c s IH]; simpl; [done|]. by rewrite IH. Qed.

(** What the client prepends the middleware takes off again. *)
Lemma bearer_strip (token : string) :
  String.prefix "Bearer " ("Bearer " +:+ token) = true
  /\ py_slice_from (String.length "Bearer ") ("Bearer " +:+ token) = token.
Proof.
  split.
  - simpl. by destruct token.
  - unfold py_slice_from. simpl. rewrite Nat.sub_0_r. apply substring_all.
Qed.

Lemma decimal_inj (a b : Z) : decimal a = decimal b -> a = b.
Proof.
  unfold decimal. intros H.
  assert (Some (Z.to_int a) = Some (Z.to_int b)) as [= E].
  { rewrite <- !NilEmpty.isi. by rewrite H. }
  rewrite <- (DecimalZ.of_to a), <- (DecimalZ.of_to b). by rewrite E.
Qed.

Lemma split_no_sep (sep : Ascii.ascii) (s : string) :
  has_char sep s = false -> split sep s = [s].
Proof.
  induction s as [|c s IH]; simpl; [done|].
  intros H. apply orb_false_iff in H as [Hc Hs].
  rewrite Hc, (IH Hs). done.
Qed.

Lemma split_nonempty (sep : Ascii.ascii) (s : string) : split sep s <> [].
Proof.
  destruct s as [|c s]; simpl; [done|].
  destruct (Ascii.eqb c sep); [done|]. by destruct (split sep s).
Qed.

(** The second segment of a mock token is the word "token". *)
Lemma mock_token_second_segment (x : string) :
  split "."%char ("mock.token." +:+ x) !! 1%nat = Some "token".
Proof.
  simpl. pose proof (split_nonempty "."%char x).
  by destruct (split "."%char x).
Qed.

(** A mock token whose payload segment has no "." has three segments. *)
Lemma mock_token_segments (x : string) :
  has_char "."%char x = false ->
  split "."%char ("mock.token." +:+ x) = ["mock"; "token"; x].
Proof.
  intros H. pose proof (split_no_sep "."%char x H) as E.
  simpl. change ("" +:+ x) with x. by rewrite E.
Qed.











End StringFacts.

(** ** Client and server together *)

Module BridgeFacts.

Import Auth Chat ChatApi Delivery ApiClient Shapes.

Section EndToEnd.

Variable origin : string.
Variable Function_toString : string -> string.
Variable atob : string -> option string.
Variable utf8_decode : string -> option string.
Variable JSON_parse : string -> option JValue.
Context {Data Resp W : Type}.
Variable axios : HttpRequest -> Promise Data.
Variable jwt_decode : string -> string -> option (gmap string string).
Variable secret : string.
Variable get_token_data : Request -> Outcome TokenData.
Variable chat_body : string -> ChatRequest -> W -> Outcome Resp * W.

Hypothesis get_token_data_state : forall req td,
  state_token_data req = Some td -> get_token_data req = Returned td.


End EndToEnd.


Section ApiClientServer.

Context {R W : Type}.
Variable jwt_decode : string -> string -> option (gmap string string).
Variable secret : string.
Variable call_next : Request -> W -> Outcome R * W.

(** X11: a request of [apiClient] to an [/api/] path reaches [verify_token]
    with exactly the stored token when a non-empty token is stored; with no
    token, or an empty one, the interceptor adds nothing and the middleware
    answers 401 "Missing or invalid Authorization header". *)
Theorem api_client_token_reaches_verifier (ls : gmap string string)
    (config : AxiosConfig) (w : W) :
  String.prefix "/api/" (cfg_url config) = true ->
  cfg_headers config !! "Authorization" = None ->
  verify_jwt_middleware jwt_decode secret
    (as_request (request_interceptor ls config)) call_next w
  = match ls !! "authToken" with
    | Some (String c rest) =>
        match verify_token jwt_decode secret (String c rest) with
        | Raised e => (Raised e, w)
        | Returned td =>
            call_next
              (set_token_data (as_request (request_interceptor ls config)) td) w
        end
    | _ =>
        (Raised (HTTPException 401 "Missing or invalid Authorization header"), w)
    end.
Proof.
  intros Hp Hh. unfold request_interceptor.
  destruct (ls !! "authToken") as [[|c rest]|] eqn:Ht; simpl.
  - apply AuthFacts.middleware_header_401; simpl; [done|]. by rewrite Hh.
  - destruct (StringFacts.bearer_strip (String c rest)) as [Hb Hstrip].
    unfold verify_jwt_middleware, as_request. simpl url_path. rewrite Hp.
    simpl headers. rewrite lookup_insert_eq. rewrite Hb. simpl negb.
    cbv iota. rewrite Hstrip. done.
  - apply AuthFacts.middleware_header_401; simpl; [done|]. by rewrite Hh.
Qed.

End ApiClientServer.

Lemma api_client_token_reaches_verifier_witness :
  verify_jwt_middleware Demo.jwt_decode Demo.secret
    (as_request
       (request_interceptor {[ "authToken" := "user1.jwt" ]}
          (mkConfig "GET" "/api/v1/tasks" ∅)))
    (λ req (w : unit), (Returned (td_user_id <$> state_token_data req), w)) tt
  = (Returned (Some seed_user1), tt).
Proof.
  rewrite (api_client_token_reaches_verifier Demo.jwt_decode Demo.secret
             (λ req (w : unit),
                (Returned (td_user_id <$> state_token_data req), w))
             {[ "authToken" := "user1.jwt" ]}
             (mkConfig "GET" "/api/v1/tasks" ∅) tt);
    reflexivity.
Defined.

Section SignedOut.

Variable API_BASE_URL : string.
Variable Function_toString : string -> string.
Variable atob : string -> option string.
Variable utf8_decode : string -> option string.
Variable JSON_parse : string -> option JValue.
Context {Data : Type}.
Variable axios : HttpRequest -> Promise Data.

(** X12: a stored token without a "." has no second segment: whatever the
    decoders do, no payload and no user id come out of it, and every chat
    operation throws "Authentication required" without a request. *)
Theorem token_without_dot_rejected (op : ClientOp) (ls : gmap string string)
    (token : string) :
  getAuthToken ls = Some token ->
  has_char "."%char token = false ->
  parseJwtPayload atob utf8_decode JSON_parse token = None
  /\ getCurrentUserId atob utf8_decode JSON_parse ls = None
  /\ run API_BASE_URL Function_toString atob utf8_decode JSON_parse axios op ls
     = ([], Rejected (Error "Authentication required")).
Proof.
  intros Ht Hdot.
  assert (Hp : parseJwtPayload atob utf8_decode JSON_parse token = None).
  { unfold parseJwtPayload. by rewrite (StringFacts.split_no_sep _ _ Hdot). }
  assert (Hc : getCurrentUserId atob utf8_decode JSON_parse ls = None).
  { unfold getCurrentUserId. rewrite Ht, Hp. by destruct (String.eqb token ""). }
  split; [exact Hp|]. split; [exact Hc|].
  destruct op; simpl;
    unfold sendMessage, getConversation, listConversations, deleteConversation;
    by rewrite ClientFacts.guarded_throws.
Qed.

(** X13: a token issued by the mock ("mock.token." and a payload) has the
    word "token" as its second segment, which [atob] refuses: the auth
    context does not restore the user from it when the provider mounts
    (and leaves the token stored), and every chat operation throws
    "Authentication required", although [isAuthenticated] answers true. *)
Theorem mock_token_gives_no_identity (op : ClientOp) (Date_now : Z)
    (btoa_json : AuthApi.MockPayload -> string) (u : AuthApi.MockUser)
    (st : AuthContext.AuthState) :
  atob "token" = None ->
  AuthContext.localStorage st !! "authToken"
    = Some (AuthApi.generateMockToken Date_now btoa_json u) ->
  AuthContext.on_mount atob utf8_decode JSON_parse st
    = AuthContext.mkAuthState (AuthContext.user st) false
        (AuthContext.localStorage st) (AuthContext.route st)
  /\ AuthContext.isAuthenticated (AuthContext.localStorage st) = true
  /\ run API_BASE_URL Function_toString atob utf8_decode JSON_parse axios op
       (AuthContext.localStorage st)
     = ([], Rejected (Error "Authentication required")).
Proof.
  intros Hatob Ht.
  set (token := AuthApi.generateMockToken Date_now btoa_json u) in *.
  assert (Hp : parseJwtPayload atob utf8_decode JSON_parse token = None).
  { unfold parseJwtPayload, token, AuthApi.generateMockToken.
    rewrite StringFacts.mock_token_second_segment. simpl. by rewrite Hatob. }
  assert (Hne : String.eqb token "" = false) by reflexivity.
  split; [|split].
  - unfold AuthContext.on_mount. rewrite Ht, Hne.
    unfold AuthContext.verifyTokenAndSetUser, AuthContext.parseJwtPayload.
    by rewrite Hp.
  - unfold AuthContext.isAuthenticated, getAuthToken. by rewrite Ht, Hne.
  - assert (Hc : getCurrentUserId atob utf8_decode JSON_parse
                   (AuthContext.localStorage st) = None).
    { unfold getCurrentUserId, getAuthToken. by rewrite Ht, Hne, Hp. }
    destruct op; simpl;
      unfold sendMessage, getConversation, listConversations,
        deleteConversation;
      by rewrite ClientFacts.guarded_throws.
Qed.

(** X14: after [logout] no user is set, the token is gone and nothing else
    in the storage changed; [isAuthenticated] answers false, every chat
    operation throws without a request, and [apiClient] adds no
    [Authorization] header. *)
Theorem logout_signs_out_everywhere (op : ClientOp)
    (st : AuthContext.AuthState) (config : AxiosConfig) :
  AuthContext.user (AuthContext.logout st) = None
  /\ AuthContext.route (AuthContext.logout st) = "/login"
  /\ (forall k, k <> "authToken" ->
        AuthContext.localStorage (AuthContext.logout st) !! k
          = AuthContext.localStorage st !! k)
  /\ AuthContext.isAuthenticated
       (AuthContext.localStorage (AuthContext.logout st)) = false
  /\ run API_BASE_URL Function_toString atob utf8_decode JSON_parse axios op
       (AuthContext.localStorage (AuthContext.logout st))
     = ([], Rejected (Error "Authentication required"))
  /\ request_interceptor
       (AuthContext.localStorage (AuthContext.logout st)) config = config.
Proof.
  assert (Hgone : AuthContext.localStorage (AuthContext.logout st)
                    !! "authToken" = None) by apply lookup_delete_eq.
  split; [done|]. split; [done|].
  split. { intros k Hk. simpl. by rewrite lookup_delete_ne. }
  split. { unfold AuthContext.isAuthenticated, getAuthToken. by rewrite Hgone. }
  split.
  - assert (Hc : getCurrentUserId atob utf8_decode JSON_parse
                   (AuthContext.localStorage (AuthContext.logout st)) = None).
    { unfold getCurrentUserId, getAuthToken. by rewrite Hgone. }
    destruct op; simpl;
      unfold sendMessage, getConversation, listConversations,
        deleteConversation;
      by rewrite ClientFacts.guarded_throws.
  - unfold request_interceptor. by rewrite Hgone.
Qed.

End SignedOut.

Lemma token_without_dot_rejected_witness :
  run Demo.API_BASE_URL Demo.Function_toString Demo.atob Demo.utf8_decode
    Demo.JSON_parse Demo.axios
    (SendMessage (mkChatRequest "hello" None)) {[ "authToken" := "opaque" ]}
  = ([], Rejected (Error "Authentication required")).
Proof.
  apply (token_without_dot_rejected Demo.API_BASE_URL
           Demo.Function_toString Demo.atob
           Demo.utf8_decode Demo.JSON_parse Demo.axios
           (SendMessage (mkChatRequest "hello" None))
           {[ "authToken" := "opaque" ]} "opaque"); reflexivity.
Defined.

Lemma mock_token_gives_no_identity_witness :
  AuthContext.isAuthenticated {[ "authToken" := "mock.token.1" ]} = true
  /\ run Demo.API_BASE_URL Demo.Function_toString Demo2.atob Demo.utf8_decode
       Demo.JSON_parse Demo.axios
       (ListConversations (JsNumber.of_Z 50) (JsNumber.of_Z 0)) {[ "authToken" := "mock.token.1" ]}
     = ([], Rejected (Error "Authentication required")).
Proof.
  destruct (mock_token_gives_no_identity Demo.API_BASE_URL
              Demo.Function_toString Demo2.atob
              Demo.utf8_decode Demo.JSON_parse Demo.axios
              (ListConversations (JsNumber.of_Z 50) (JsNumber.of_Z 0)) 0
              Demo.btoa_json
              (AuthApi.mkMockUser "1" "admin@example.com" "admin" "admin123")
              (AuthContext.mkAuthState None true
                 {[ "authToken" := "mock.token.1" ]} "/tasks"))
    as (_ & H2 & H3); [reflexivity..|].
  split; [exact H2|exact H3].
Defined.

End BridgeFacts.

(** ** The task page and the notifications *)

Module PageFacts.

Import Notifications TasksPage.

Lemma or_else_nonempty (message : option string) (fallback : string) :
  fallback <> "" -> or_else message fallback <> "".
Proof.
  intros Hf. unfold or_else. destruct message as [m|]; [|done].
  by destruct (String.eqb_spec m "").
Qed.

Lemma filter_all_kept {A : Type} (P : A -> Prop) `{!forall x, Decision (P x)}
    (l : list A) :
  Forall P l -> filter P l = l.
Proof.
  induction 1 as [|x l Hx _ IH]; [done|].
  by rewrite filter_cons_True, IH.
Qed.

Section Page.

Variable api_tasks : ApiCall -> ApiResult (list Task).
Variable api_task : ApiCall -> ApiResult Task.
Variable api_delete : ApiCall -> ApiResult unit.

(** X15: [handleDelete] makes no call and changes nothing when the user
    declines the confirmation; on a successful call exactly the tasks with
    that id leave the list, the others staying in their order; on a failed
    call the page is unchanged and one error is shown. *)
Theorem handleDelete_outcomes (confirmed : bool) (taskId : string)
    (st : PageState) :
  let s := handleDelete api_delete confirmed taskId st in
  let call := mkCall "DELETE" ("/tasks/" +:+ taskId) NoData in
  if confirmed then
    calls s = [call]
    /\ match api_delete call with
       | ApiOk _ =>
           (forall t, t ∈ tasks (after s) <-> t ∈ tasks st /\ id t <> taskId)
           /\ tasks (after s) `sublist_of` tasks st
           /\ shown s = [("Task deleted successfully", success)]
       | ApiFailed _ =>
           after s = st
           /\ exists msg, shown s = [(msg, error)] /\ msg <> ""
       end
  else s = mkStep st [] [].
Proof.
  unfold handleDelete. destruct confirmed; simpl; [|done].
  destruct (api_delete _) as [[]|m]; simpl.
  - split; [done|]. split; [|split; [apply sublist_filter|done]].
    intros t. rewrite list_elem_of_filter. tauto.
  - split; [done|]. split; [done|]. eexists. split; [done|].
    by apply or_else_nonempty.
Qed.

(** X16: creating a task and then deleting it gives back the list as it
    was, provided no task of the list already had the id the server gave
    to the new one. *)
Theorem create_then_delete_restores (taskData : Tools.TaskPatch)
    (st : PageState) (task : Task) :
  editingTask st = None ->
  api_task (mkCall "POST" "/tasks" (TaskData taskData)) = ApiOk task ->
  api_delete (mkCall "DELETE" ("/tasks/" +:+ id task) NoData) = ApiOk tt ->
  Forall (λ t, id t <> id task) (tasks st) ->
  tasks (after (handleCreateOrUpdate api_task taskData st))
    = tasks st ++ [task]
  /\ tasks (after (handleDelete api_delete true (id task)
                     (after (handleCreateOrUpdate api_task taskData st))))
     = tasks st.
Proof.
  intros He Hc Hd Hfresh.
  unfold handleCreateOrUpdate. rewrite He, Hc. simpl. split; [done|].
  unfold handleDelete. simpl. rewrite Hd. simpl.
  rewrite filter_app, filter_all_kept by done.
  rewrite filter_cons_False by (intros H; by apply H).
  by rewrite filter_nil, app_nil_r.
Qed.

(** X17: saving an edit and toggling completion replace list entries in
    place: the list keeps its length, an entry with another id is untouched
    at its position, and every entry with the id of the edited (toggled)
    task becomes the task the server answered.  A successful edit closes
    the form; a failed one leaves form and edited task as they were. *)
Theorem replace_in_place (taskData : Tools.TaskPatch) (st : PageState)
    (editing toggled : Task) :
  editingTask st = Some editing ->
  let saved := handleCreateOrUpdate api_task taskData st in
  let flipped := handleToggleComplete api_task toggled st in
  match api_task (mkCall "PUT" ("/tasks/" +:+ id editing) (TaskData taskData)) with
  | ApiOk task =>
      length (tasks (after saved)) = length (tasks st)
      /\ (forall i t, tasks st !! i = Some t ->
            tasks (after saved) !! i
              = Some (if bool_decide (id t = id editing) then task else t))
      /\ showForm (after saved) = false /\ editingTask (after saved) = None
  | ApiFailed _ => after saved = st
  end
  /\ calls flipped
     = [mkCall "PATCH" ("/tasks/" +:+ id toggled +:+ "/status")
          (Completed (bool_decide (status toggled <> completed)))]
  /\ match api_task (mkCall "PATCH" ("/tasks/" +:+ id toggled +:+ "/status")
                       (Completed (bool_decide (status toggled <> completed)))) with
     | ApiOk task =>
         length (tasks (after flipped)) = length (tasks st)
         /\ (forall i t, tasks st !! i = Some t ->
               tasks (after flipped) !! i
                 = Some (if bool_decide (id t = id toggled) then task else t))
         /\ editingTask (after flipped) = editingTask st
     | ApiFailed _ => after flipped = st
     end.
Proof.
  intros He. cbv zeta. split; [|split].
  - unfold handleCreateOrUpdate. rewrite He.
    destruct (api_task _) as [task|m]; simpl; [|done].
    split; [apply length_fmap|]. split; [|done].
    intros i t Hi. by rewrite list_lookup_fmap, Hi.
  - unfold handleToggleComplete. by destruct (api_task _).
  - unfold handleToggleComplete.
    destruct (api_task _) as [task|m]; simpl; [|done].
    split; [apply length_fmap|]. split; [|done].
    intros i t Hi. by rewrite list_lookup_fmap, Hi.
Qed.

(** X18: while every call fails, each handler that talks to the server
    shows exactly one notification, of type error and with a non-empty
    text, and leaves the task list as it was. *)
Theorem failures_are_shown (taskData : Tools.TaskPatch) (taskId : string)
    (task : Task) (st : PageState) :
  (forall c, exists m, api_tasks c = ApiFailed m) ->
  (forall c, exists m, api_task c = ApiFailed m) ->
  (forall c, exists m, api_delete c = ApiFailed m) ->
  Forall (λ s, tasks (after s) = tasks st
               /\ exists msg, shown s = [(msg, error)] /\ msg <> "")
    [ fetchTasks api_tasks st;
      handleCreateOrUpdate api_task taskData st;
      handleDelete api_delete true taskId st;
      handleToggleComplete api_task task st ].
Proof.
  intros Hts Ht Hd.
  repeat apply Forall_cons_2; [| | | |apply Forall_nil_2].
  - unfold fetchTasks. destruct (Hts (mkCall "GET" "/tasks" NoData)) as [m ->].
    simpl. split; [done|]. eexists. split; [done|]. by apply or_else_nonempty.
  - unfold handleCreateOrUpdate. destruct (editingTask st) as [e|].
    + destruct (Ht (mkCall "PUT" ("/tasks/" +:+ id e) (TaskData taskData)))
        as [m ->].
      simpl. split; [done|]. eexists. split; [done|]. by apply or_else_nonempty.
    + destruct (Ht (mkCall "POST" "/tasks" (TaskData taskData))) as [m ->].
      simpl. split; [done|]. eexists. split; [done|]. by apply or_else_nonempty.
  - unfold handleDelete. simpl.
    destruct (Hd (mkCall "DELETE" ("/tasks/" +:+ taskId) NoData)) as [m ->].
    simpl. split; [done|]. eexists. split; [done|]. by apply or_else_nonempty.
  - unfold handleToggleComplete.
    destruct (Ht (mkCall "PATCH" ("/tasks/" +:+ id task +:+ "/status")
                    (Completed (bool_decide (status task <> completed)))))
      as [m ->].
    simpl. split; [done|]. eexists. split; [done|]. by apply or_else_nonempty.
Qed.

End Page.

Lemma create_then_delete_restores_witness :
  tasks (after (handleDelete Demo2.api_delete true (id seed_task_cicd)
                  (after (handleCreateOrUpdate Demo2.api_task
                            (Tools.mkPatch (Some "Setup CI/CD pipeline")
                               None None None None)
                            Demo2.tasks_page))))
  = [seed_task_docs; seed_task_frontend].
Proof.
  apply (create_then_delete_restores Demo2.api_task Demo2.api_delete
           (Tools.mkPatch (Some "Setup CI/CD pipeline") None None None None)
           Demo2.tasks_page seed_task_cicd); try reflexivity.
  repeat constructor; discriminate.
Defined.

Lemma replace_in_place_witness :
  length (tasks (after (handleCreateOrUpdate Demo2.api_task
                          (Tools.mkPatch (Some "Docs") None None None None)
                          (handleEdit seed_task_docs Demo2.tasks_page))))
  = 2%nat.
Proof.
  destruct (replace_in_place Demo2.api_task
              (Tools.mkPatch (Some "Docs") None None None None)
              (handleEdit seed_task_docs Demo2.tasks_page)
              seed_task_docs seed_task_frontend eq_refl)
    as [[H _] _].
  exact H.
Defined.

Lemma failures_are_shown_witness :
  Forall (λ s, tasks (after s) = tasks Demo2.tasks_page
               /\ exists msg, shown s = [(msg, error)] /\ msg <> "")
    [ fetchTasks Demo2.api_down Demo2.tasks_page;
      handleCreateOrUpdate Demo2.api_down
        (Tools.mkPatch (Some "x") None None None None) Demo2.tasks_page;
      handleDelete Demo2.api_down true (id seed_task_docs) Demo2.tasks_page;
      handleToggleComplete Demo2.api_down seed_task_docs Demo2.tasks_page ].
Proof.
  apply (failures_are_shown Demo2.api_down Demo2.api_down Demo2.api_down);
    intros c; exists None; reflexivity.
Defined.

(** X19: closing a notification closes every notification with that id
    and no other, in any order with showing another one; when the id drawn
    for a new notification is not in use, closing it gives back the list
    as it was before it was shown. *)
Theorem hide_after_show (id message : string) (type : NotificationType)
    (prev : list NotificationData) :
  hideNotification id (showNotification id message type prev)
    = hideNotification id prev
  /\ (forall id', id' <> id ->
        hideNotification id' (showNotification id message type prev)
          = showNotification id message type (hideNotification id' prev))
  /\ (forall n, n ∈ hideNotification id prev <-> n ∈ prev /\ n_id n <> id)
  /\ (Forall (λ n, n_id n <> id) prev ->
        hideNotification id (showNotification id message type prev) = prev).
Proof.
  unfold hideNotification, showNotification.
  assert (E : filter (λ n, n_id n ≠ id)
                (prev ++ [mkNotification id message type])
              = filter (λ n, n_id n ≠ id) prev).
  { rewrite filter_app, filter_cons_False by (intros H; by apply H).
    by rewrite filter_nil, app_nil_r. }
  split; [exact E|]. split; [|split].
  - intros id' Hne. rewrite filter_app, filter_cons_True by (simpl; congruence).
    by rewrite filter_nil.
  - intros n. rewrite list_elem_of_filter. tauto.
  - intros Hfresh. rewrite E. by apply filter_all_kept.
Qed.

End PageFacts.

(** ** The mock user list and the auth context *)

Module MockFacts.

Import AuthApi Shapes.

Lemma find_skip {A : Type} (f : A -> bool) (l l' : list A) :
  (forall x, x ∈ l -> f x = false) -> List.find f (l ++ l') = List.find f l'.
Proof.
  induction l as [|x l IH]; intros H; simpl; [done|].
  rewrite (H x) by apply list_elem_of_here.
  apply IH. intros y Hy. apply H. by apply list_elem_of_further.
Qed.

Lemma find_hit {A : Type} (f : A -> bool) (l : list A) (x : A) :
  x ∈ l -> f x = true -> exists y, List.find f l = Some y.
Proof.
  intros Hin Hf. destruct (List.find f l) as [y|] eqn:E; [by exists y|].
  apply list_elem_of_In in Hin.
  by rewrite (List.find_none f l E x Hin) in Hf.
Qed.

Lemma find_elem {A : Type} (f : A -> bool) (l : list A) (x : A) :
  List.find f l = Some x -> x ∈ l /\ f x = true.
Proof.
  intros E. destruct (List.find_some f l E) as [Hin Hf].
  split; [by apply list_elem_of_In|done].
Qed.

Lemma find_miss {A : Type} (f : A -> bool) (l : list A) :
  List.find f l = None -> forall x, x ∈ l -> f x = false.
Proof.
  intros E x Hin. apply (List.find_none f l E). by apply list_elem_of_In.
Qed.

Lemma numbered_unique (users : list MockUser) (u u' : MockUser) :
  numbered users -> u ∈ users -> u' ∈ users -> id u = id u' -> u = u'.
Proof.
  intros Hn Hu Hu' Hid.
  apply list_elem_of_lookup in Hu as [i Hi].
  apply list_elem_of_lookup in Hu' as [j Hj].
  rewrite (Hn i u Hi), (Hn j u' Hj) in Hid.
  apply StringFacts.decimal_inj in Hid.
  assert (i = j) as -> by lia. congruence.
Qed.

Section Mock.

Variable Date_now : Z.
Variable btoa_json : MockPayload -> string.
Variable decode_user_id : string -> option string.

(** A resolved mock login names a user of the list. *)
Lemma mock_login_known_only_aux (c : LoginCredentials) (users : list MockUser) :
  match (mock_login Date_now btoa_json c users).1 with
  | Resolved (SessionData _ _ ui _) => exists u, u ∈ users /\ ui = info u
  | _ => True
  end.
Proof.
  unfold mock_login. destruct (List.find _ users) as [u|] eqn:E; simpl; [|done].
  apply find_elem in E as [Hin _]. by exists u.
Qed.



(** X21: after a successful mock registration, logging in with the email
    and password just registered succeeds and gives the session of the new
    user, whose id is the decimal of the new length of the list. *)
Theorem register_then_login_succeeds (later : Z) (c : RegisterCredentials)
    (users users' : list MockUser) (d : AuthData) :
  mock_register Date_now btoa_json c users = (Resolved d, users') ->
  exists newUser,
    users' = users ++ [newUser]
    /\ email newUser = r_email c /\ username newUser = r_username c
    /\ id newUser = decimal (Z.of_nat (length users) + 1)
    /\ mock_login later btoa_json (mkLogin (r_email c) (r_password c)) users'
       = (Resolved (SessionData true (generateMockToken later btoa_json newUser)
                      (info newUser) "Login successful"), users').
Proof.
  unfold mock_register.
  destruct (List.find _ users) as [u|] eqn:E; [discriminate|].
  intros [= <- <-]. eexists. split; [reflexivity|].
  do 3 (split; [reflexivity|]).
  unfold mock_login. rewrite find_skip.
  - simpl. by rewrite !String.eqb_refl.
  - intros x Hx. pose proof (find_miss _ _ E x Hx) as Hf. simpl in Hf.
    apply orb_false_iff in Hf as [He _]. simpl. by rewrite He.
Qed.

(** X22: after a successful mock registration, a further registration with
    the same email or the same username is refused and leaves the list
    unchanged. *)
Theorem register_twice_refused (c c' : RegisterCredentials)
    (users users' : list MockUser) (d : AuthData) :
  mock_register Date_now btoa_json c users = (Resolved d, users') ->
  r_email c' = r_email c \/ r_username c' = r_username c ->
  mock_register Date_now btoa_json c' users'
    = (Rejected (Error "Email or username already exists"), users').
Proof.
  unfold mock_register at 1.
  destruct (List.find _ users) as [u|] eqn:E; [discriminate|].
  intros [= <- <-] Hsame.
  set (newUser := mkMockUser _ _ _ _).
  destruct (find_hit
              (λ u, String.eqb (email u) (r_email c')
                    || String.eqb (username u) (r_username c'))
              (users ++ [newUser]) newUser) as [y Hy].
  - apply elem_of_app. right. apply list_elem_of_here.
  - simpl. apply orb_true_iff.
    destruct Hsame as [->| ->]; [left|right]; apply String.eqb_refl.
  - unfold mock_register. by rewrite Hy.
Qed.

(** X23: a user list numbered like [MOCK_USERS] (the user at position [i]
    has id [String(i + 1)]) stays so under registration, whether it
    succeeds or not; so all ids of the list stay pairwise different. *)
Theorem register_keeps_numbering (c : RegisterCredentials)
    (users : list MockUser) :
  numbered users ->
  numbered (mock_register Date_now btoa_json c users).2
  /\ NoDup (id <$> (mock_register Date_now btoa_json c users).2).
Proof.
  intros Hn.
  assert (Hn' : numbered (mock_register Date_now btoa_json c users).2).
  { unfold mock_register. destruct (List.find _ users); simpl; [done|].
    intros i u Hi. apply lookup_app_Some in Hi as [Hi|[Hge Hi]].
    - by apply Hn.
    - apply list_lookup_singleton_Some in Hi as [Hi <-]. simpl.
      f_equal. lia. }
  split; [exact Hn'|].
  apply NoDup_alt. intros i j x Hi Hj.
  rewrite list_lookup_fmap in Hi, Hj.
  destruct (_ !! i) as [u|] eqn:Ei; [|discriminate].
  destruct (_ !! j) as [u'|] eqn:Ej; [|discriminate].
  simpl in Hi, Hj. injection Hi as Hi. injection Hj as Hj.
  rewrite (Hn' i u Ei) in Hi. rewrite (Hn' j u' Ej) in Hj.
  rewrite <- Hj in Hi. apply StringFacts.decimal_inj in Hi. lia.
Qed.

(** X24: on a numbered user list, the profile read with the token a mock
    login returned is the profile of the user who logged in, provided the
    payload segment of that token has no "." and decodes to that user's
    id. *)
Theorem login_then_getProfile (c : LoginCredentials) (users : list MockUser)
    (ls : gmap string string) (segment message : string) (ok : bool)
    (ui : UserInfo) :
  numbered users ->
  mock_login Date_now btoa_json c users
    = (Resolved (SessionData ok ("mock.token." +:+ segment) ui message), users) ->
  has_char "."%char segment = false ->
  decode_user_id segment = Some (u_id ui) ->
  ls !! "authToken" = Some ("mock.token." +:+ segment) ->
  mock_getProfile decode_user_id ls users = (Resolved (ProfileData ui), users).
Proof.
  intros Hn Hlogin Hdot Hdec Hls.
  pose proof (mock_login_known_only_aux c users) as Haux.
  rewrite Hlogin in Haux. simpl in Haux.
  destruct Haux as (u & Hin & Hinfo).
  unfold mock_getProfile.
  rewrite Hls, (StringFacts.mock_token_segments _ Hdot). simpl. rewrite Hdec.
  destruct (find_hit (λ u0, String.eqb (id u0) (u_id ui)) users u Hin)
    as [u' Hu'].
  { rewrite Hinfo. simpl. apply String.eqb_refl. }
  rewrite Hu'. apply find_elem in Hu' as [Hin' Hid].
  apply String.eqb_eq in Hid.
  assert (u' = u) as ->.
  { apply (numbered_unique users); try done. rewrite Hid, Hinfo. done. }
  by rewrite Hinfo.
Qed.

End Mock.

End MockFacts.

Module MockExamples.

Import AuthApi Shapes.

Lemma numbered_MOCK_USERS : numbered MOCK_USERS.
Proof.
  intros i u Hi. unfold MOCK_USERS in Hi.
  destruct i as [|[|[|i]]]; simpl in Hi; try discriminate;
    injection Hi as <-; reflexivity.
Qed.

Lemma register_then_login_succeeds_witness :
  exists newUser,
    id newUser = "4"
    /\ mock_login 1000 Demo.btoa_json (mkLogin "new@example.com" "pw")
         (MOCK_USERS ++ [newUser])
       = (Resolved (SessionData true
                      (generateMockToken 1000 Demo.btoa_json newUser)
                      (info newUser) "Login successful"),
          MOCK_USERS ++ [newUser]).
Proof.
  destruct (MockFacts.register_then_login_succeeds 0 Demo.btoa_json 1000
              (mkRegister "new@example.com" "pw" "newbie") MOCK_USERS
              _ _ eq_refl)
    as (newUser & -> & _ & _ & Hid & Hlogin).
  exists newUser. split; [exact Hid|exact Hlogin].
Defined.

Lemma register_twice_refused_witness :
  mock_register 0 Demo.btoa_json (mkRegister "new@example.com" "other" "twin")
    (mock_register 0 Demo.btoa_json
       (mkRegister "new@example.com" "pw" "newbie") MOCK_USERS).2
  = (Rejected (Error "Email or username already exists"),
     (mock_register 0 Demo.btoa_json
        (mkRegister "new@example.com" "pw" "newbie") MOCK_USERS).2).
Proof.
  apply (MockFacts.register_twice_refused 0 Demo.btoa_json
           (mkRegister "new@example.com" "pw" "newbie")
           (mkRegister "new@example.com" "other" "twin") MOCK_USERS _ _ eq_refl).
  left. reflexivity.
Defined.

Lemma register_keeps_numbering_witness :
  NoDup (id <$> (mock_register 0 Demo.btoa_json
                   (mkRegister "new@example.com" "pw" "newbie") MOCK_USERS).2).
Proof.
  apply (MockFacts.register_keeps_numbering 0 Demo.btoa_json
           (mkRegister "new@example.com" "pw" "newbie") MOCK_USERS
           numbered_MOCK_USERS).
Defined.

Lemma login_then_getProfile_witness :
  mock_getProfile Demo.decode_user_id {[ "authToken" := "mock.token.2" ]}
    MOCK_USERS
  = (Resolved (ProfileData (mkUserInfo "2" "user@example.com" "user")),
     MOCK_USERS).
Proof.
  apply (MockFacts.login_then_getProfile 0 Demo.btoa_json Demo.decode_user_id
           (mkLogin "user@example.com" "user123") MOCK_USERS
           {[ "authToken" := "mock.token.2" ]} "2" "Login successful" true
           (mkUserInfo "2" "user@example.com" "user")
           numbered_MOCK_USERS); reflexivity.
Defined.

End MockExamples.

(** ** Signing in through the context *)

Module ContextFacts.

Import AuthApi Shapes.

Section Context.

Variable API_BASE_URL : string.
Variable Date_now : Z.
Variable btoa_json : MockPayload -> string.
Variable axios : AuthRequest -> Promise AxiosResponse.


End Context.


End ContextFacts.

(** ** The chat page's sidebar *)

Module SidebarFacts.

Import Chat ChatPage.

(** X26: after a confirmed, successful delete the conversation is gone
    from the sidebar and every other entry is still there; the open
    conversation and its messages are kept unless it was the deleted one,
    in which case the page is a new chat; either way the next
    [sendMessage] does not carry the deleted id.  A declined confirmation
    calls nothing and a failed call changes nothing. *)
Theorem deleted_conversation_not_addressed (confirmed : bool) (id : Z)
    (response : Promise unit) (st : State) (content : string) :
  let r := handleDeleteConversation confirmed id response st in
  match confirmed, response with
  | true, Resolved _ =>
      (forall c, c ∈ conversations r.1.1 <->
                 c ∈ conversations st /\ sb_id c <> id)
      /\ (conversationId (page st) = Some id -> page r.1.1 = mkPage None [])
      /\ (conversationId (page st) <> Some id ->
            page r.1.1 = page st /\ sidebarOpen r.1.1 = sidebarOpen st)
      /\ req_conversation_id (sendMessage_request (page r.1.1) content)
         <> Some id
      /\ r.1.2 = None
  | true, Rejected _ => r = (st, Some "Failed to delete conversation", true)
  | false, _ => r = (st, None, false)
  end.
Proof.
  unfold handleDeleteConversation.
  destruct confirmed; simpl; [|done].
  destruct response as [[]|e]; simpl; [|done].
  destruct (bool_decide_reflect (conversationId (page st) = Some id))
    as [Heq|Hne]; simpl.
  - split; [intros c; rewrite list_elem_of_filter; tauto|].
    repeat split; try done.
  - split; [intros c; rewrite list_elem_of_filter; tauto|].
    repeat split; try done.
Qed.

(** X27: selecting a conversation shows the server's messages one for one
    and in order, makes it the open conversation, so that the next
    [sendMessage] carries its id, and leaves the sidebar list alone; the
    tool calls shown for a message are those of [metadata.tool_calls]
    whenever that member exists, even as an empty array.  A failed load
    changes nothing. *)
Theorem selected_conversation_shown (id : Z)
    (response : Promise (list ServerMessage)) (st : State) (content : string) :
  let st' := handleSelectConversation id response st in
  match response with
  | Resolved msgs =>
      length (page_messages (page st')) = length msgs
      /\ (forall i m, msgs !! i = Some m ->
            exists shown,
              page_messages (page st') !! i = Some shown
              /\ cm_role shown = m_role m /\ cm_content shown = m_content m
              /\ match m_metadata_tool_calls m with
                 | Some cs => cm_toolCalls shown = cs
                 | None => cm_toolCalls shown = default [] (m_tool_calls m)
                 end)
      /\ req_conversation_id (sendMessage_request (page st') content) = Some id
      /\ conversations st' = conversations st
  | Rejected _ => st' = st
  end.
Proof.
  unfold handleSelectConversation. destruct response as [msgs|e]; simpl; [|done].
  split; [apply length_fmap|]. split; [|done].
  intros i m Hi. exists (to_chat_message m).
  rewrite list_lookup_fmap, Hi. simpl. split; [done|].
  split; [done|]. split; [done|].
  unfold toolCalls_of. by destruct (m_metadata_tool_calls m).
Qed.

End SidebarFacts.

(** ** Listing conversations *)

Module QueryFacts.

Import Chat ConversationQueries.

Section Query.

Variable earlier : Timestamp -> Timestamp -> bool.

(** Any two [updated_at] values are comparable. *)
Hypothesis earlier_total : forall a b, earlier a b = true \/ earlier b a = true.

(** X28: the conversation listing returns exactly the conversations of the
    store owned by the user, each as often as it is stored, ordered so
    that none is followed by one updated later. *)
Theorem list_conversations_own_newest_first (user_uuid : string)
    (st : ConversationStore) :
  list_conversations earlier user_uuid st
    ≡ₚ filter (λ c, conv_user_id c = user_uuid) (conversations st)
  /\ (forall c, c ∈ list_conversations earlier user_uuid st <->
                c ∈ conversations st /\ conv_user_id c = user_uuid)
  /\ Sorted (newest_first earlier) (list_conversations earlier user_uuid st).
Proof.
  unfold list_conversations.
  assert (Hp : merge_sort (newest_first earlier)
                 (filter (λ c, conv_user_id c = user_uuid) (conversations st))
               ≡ₚ filter (λ c, conv_user_id c = user_uuid) (conversations st))
    by apply merge_sort_Permutation.
  split; [exact Hp|]. split.
  - intros c. rewrite Hp, list_elem_of_filter. tauto.
  - apply Sorted_merge_sort. intros a b. unfold newest_first.
    destruct (earlier_total (conv_updated_at b) (conv_updated_at a)); auto.
Qed.

End Query.

Lemma list_conversations_own_newest_first_witness :
  list_conversations String.leb seed_user1 Demo2.chat_store
    ≡ₚ [Demo2.older; Demo2.newer]
  /\ Sorted (newest_first String.leb)
       (list_conversations String.leb seed_user1 Demo2.chat_store).
Proof.
  destruct (list_conversations_own_newest_first String.leb String.leb_total
              seed_user1 Demo2.chat_store) as (Hp & _ & Hs).
  split; [exact Hp|exact Hs].
Defined.

(** On the sample store the newer conversation comes first and the other
    user's conversation is left out. *)
Example list_conversations_sample :
  list_conversations String.leb seed_user1 Demo2.chat_store
  = [Demo2.newer; Demo2.older].
Proof. vm_compute. reflexivity. Qed.

End QueryFacts.

(** ** A signed-out call of the task pages *)

Module RedirectFacts.

Import ApiClient.

Section Redirect.

Context {A : Type}.
Variable adapter : AxiosConfig -> A + option Z.

(** X29: with no token stored (or an empty one) a call through [apiClient]
    goes out as it was configured, the request interceptor adding no
    [Authorization] header.  A response reaches the caller and the window
    stays where it is; a failed call is rejected to the caller with its
    error, and the window is sent to [/login] when the failure carries
    status 401 and stays where it is for every other failure, a missing
    response included. *)
Theorem signed_out_call_redirects (ls : gmap string string)
    (config : AxiosConfig) (location : string) :
  ls !! "authToken" = None \/ ls !! "authToken" = Some "" ->
  let r := call adapter ls location config in
  request_interceptor ls config = config
  /\ match adapter config with
     | inl response => r = (location, Resolved response)
     | inr status =>
         r.2 = Rejected (AxiosError status)
         /\ (status = Some 401%Z -> r.1 = "/login")
         /\ (status <> Some 401%Z -> r.1 = location)
     end.
Proof.
  intros Hls. cbv zeta.
  assert (Hc : request_interceptor ls config = config).
  { unfold request_interceptor. by destruct Hls as [-> | ->]. }
  split; [exact Hc|]. unfold call. rewrite Hc.
  destruct (adapter config) as [response|status]; [done|].
  unfold response_error_interceptor. simpl.
  split; [done|]. split.
  - intros ->. by rewrite bool_decide_eq_true_2.
  - intros Hne. by rewrite bool_decide_eq_false_2.
Qed.

End Redirect.

Lemma signed_out_call_redirects_witness :
  call (A := unit) (λ _, inr (Some 401%Z)) ∅ "/tasks"
    (mkConfig "GET" "/api/v1/tasks" ∅)
  = ("/login", Rejected (AxiosError (Some 401%Z))).
Proof.
  destruct (signed_out_call_redirects (A := unit) (λ _, inr (Some 401%Z))
              ∅ (mkConfig "GET" "/api/v1/tasks" ∅) "/tasks")
    as [_ (H2 & H1 & _)]; [by left|].
  apply injective_projections; [by apply H1|exact H2].
Defined.

(** A server error, or no answer at all, leaves the page where it is. *)
Example failed_call_stays :
  (call (A := unit) (λ _, inr (Some 500%Z)) ∅ "/tasks"
     (mkConfig "GET" "/api/v1/tasks" ∅)).1 = "/tasks"
  /\ (call (A := unit) (λ _, inr None) {[ "authToken" := "user1.jwt" ]}
        "/tasks" (mkConfig "GET" "/api/v1/tasks" ∅)).1 = "/tasks".
Proof. split; reflexivity. Qed.

End RedirectFacts.
